(** * TerraSight: the fusion engine and the weed/pest detector

    A shallow embedding of [agri_drone_system.py]: the rule-based
    [FusionEngine.fuse_results], and [WeedPestDetector.detect] with its
    keyword categoriser.  Python values are modelled as follows.

    - [str] is [string]; [==] is [String.eqb], [a in b] is [str_in a b],
      [s.lower()] is [lower s] (the labels are ASCII).
    - [float] (and the numpy scalars, which embed exactly) is a binary64
      value of [spec_float]; [<] is [SFltb], [*] is [SFmul 53 1024].
    - [int] is [Z].
    - the [diagnosis] dict is the record [Diagnosis]; [list.append] adds at
      the end of the list.
    - an exception raised inside a [try] block is the [Raise] case of
      [result]; the message is what [str(e)] returns. *)

From Stdlib Require Import ZArith List String Ascii Bool Lia Permutation.
From Stdlib Require Import DecimalString.
From Stdlib Require Import Floats.SpecFloat.
Import ListNotations.

Local Open Scope string_scope.
Local Open Scope Z_scope.

(** ** Strings *)

Module PyStr.

(** [sub in s] *)
Fixpoint str_in (sub s : string) : bool :=
  if String.prefix sub s then true
  else match s with
       | EmptyString => false
       | String _ s' => str_in sub s'
       end.

Definition lower_ascii (c : ascii) : ascii :=
  let n := nat_of_ascii c in
  if (Nat.leb 65 n && Nat.leb n 90)%bool then ascii_of_nat (n + 32) else c.

(** [s.lower()] *)
Fixpoint lower (s : string) : string :=
  match s with
  | EmptyString => EmptyString
  | String c s' => String (lower_ascii c) (lower s')
  end.

(** [str(n)] and [f"{n}"] for an [int] *)
Definition str_of_int (n : Z) : string :=
  NilZero.string_of_int (Z.to_int n).

(** [any(kw in s for kw in kws)] *)
Definition any_in (kws : list string) (s : string) : bool :=
  existsb (fun kw => str_in kw s) kws.

(** Truth value of a string: the empty string is false. *)
Definition truthy (s : string) : bool :=
  negb (String.eqb s "").

End PyStr.

(** ** Floats *)

Module PyFloat.

Definition float := spec_float.

Definition prec : Z := 53.
Definition emax : Z := 1024.

Definition of_int (n : Z) : float := binary_normalize prec emax n 0 false.

(** The decimal literal [n/d] (as [0.3] is [lit 3 10]): the binary64
    value nearest to the quotient, which is what the correctly rounded
    division of the two exactly represented integers returns. *)
Definition lit (n d : Z) : float := SFdiv prec emax (of_int n) (of_int d).

Definition lt (x y : float) : bool := SFltb x y.
Definition mul (x y : float) : float := SFmul prec emax x y.

(** [n / d] rounded to the nearest integer, ties to even ([0 <= n], [0 < d]) *)
Definition round_half_even (n d : Z) : Z :=
  let q := n / d in
  let r := n mod d in
  match 2 * r ?= d with
  | Lt => q
  | Gt => q + 1
  | Eq => if Z.even q then q else q + 1
  end.

(** [m * 2^e * 100] rounded to an integer: the value in hundredths *)
Definition hundredths (m : positive) (e : Z) : Z :=
  if 0 <=? e then Zpos m * 2 ^ e * 100
  else round_half_even (Zpos m * 100) (2 ^ (- e)).

Definition two_digits (n : Z) : string :=
  if n <? 10 then "0" ++ PyStr.str_of_int n else PyStr.str_of_int n.

Definition sign_str (s : bool) : string := if s then "-" else "".

(** [format(x, '.2f')]: the exact value, correctly rounded to two
    decimal places *)
Definition format_f2 (x : float) : string :=
  match x with
  | S754_nan => "nan"
  | S754_infinity s => sign_str s ++ "inf"
  | S754_zero s => sign_str s ++ "0.00"
  | S754_finite s m e =>
      let h := hundredths m e in
      sign_str s ++ PyStr.str_of_int (h / 100) ++ "." ++ two_digits (h mod 100)
  end.

(** [f"{x:.2%}"]: the value is multiplied by 100 (in binary64), printed in
    fixed notation with two decimals and followed by a percent sign. *)
Definition format_pct2 (x : float) : string :=
  format_f2 (mul x (of_int 100)) ++ "%".

End PyFloat.

Import PyStr PyFloat.

(** ** Exceptions inside a [try] block *)

Inductive result (A : Type) : Type :=
| Ok (a : A)
| Raise (msg : string).

Arguments Ok {A} a.
Arguments Raise {A} msg.

Definition bind {A B : Type} (r : result A) (k : A -> result B) : result B :=
  match r with
  | Ok a => k a
  | Raise msg => Raise msg
  end.

Notation "x <- r ;; k" := (bind r (fun x => k))
  (at level 61, r at next level, right associativity).

(** A [for] loop whose body may raise: the first exception ends the loop. *)
Fixpoint for_each {A S : Type} (body : S -> A -> result S) (xs : list A) (s : S)
  : result S :=
  match xs with
  | [] => Ok s
  | x :: xs' => s' <- body s x ;; for_each body xs' s'
  end.

(** [int(x)] for a float: truncation towards zero; NaN and the infinities
    raise. *)
Definition int_of_float (x : float) : result Z :=
  match x with
  | S754_nan => Raise "cannot convert float NaN to integer"
  | S754_infinity _ => Raise "cannot convert float infinity to integer"
  | S754_zero _ => Ok 0
  | S754_finite s m e => Ok (cond_Zopp s (Z.shiftl (Zpos m) e))
  end.

(** ** Data model *)

(** One entry of the detection list: the dict built by [detect]. *)
Record Detection : Type := mkDetection {
  bbox : list Z;
  det_confidence : float;
  label : string;
  category : string
}.

(** The [diagnosis] dict of [fuse_results]. *)
Record Diagnosis : Type := mkDiagnosis {
  crop_type : string;
  disease_name : string;
  overall_health : string;
  confidence : float;
  issues : list string;
  recommendations : list string
}.

(** [self.rules] of a [FusionEngine]: a dict from a severity to a list. *)
Record FusionEngine : Type := mkFusionEngine {
  rules : list (string * list string)
}.

(** [FusionEngine.__init__] *)
Definition FusionEngine_init : FusionEngine :=
  {| rules := [("critical", []); ("warning", []); ("info", [])] |}.

(** ** The fusion engine *)

Module Fusion.

(** [diagnosis['issues'].append(s)] *)
Definition append_issue (s : string) (d : Diagnosis) : Diagnosis :=
  {| crop_type := crop_type d; disease_name := disease_name d;
     overall_health := overall_health d; confidence := confidence d;
     issues := issues d ++ [s];
     recommendations := recommendations d |}.

(** [diagnosis['recommendations'].append(s)] *)
Definition append_recommendation (s : string) (d : Diagnosis) : Diagnosis :=
  {| crop_type := crop_type d; disease_name := disease_name d;
     overall_health := overall_health d; confidence := confidence d;
     issues := issues d;
     recommendations := recommendations d ++ [s] |}.

(** [diagnosis['overall_health'] = h; diagnosis['confidence'] = c] *)
Definition set_health (h : string) (c : float) (d : Diagnosis) : Diagnosis :=
  {| crop_type := crop_type d; disease_name := disease_name d;
     overall_health := h; confidence := c;
     issues := issues d;
     recommendations := recommendations d |}.

(** The dict literal at the head of [fuse_results]. *)
Definition new_diagnosis (crop disease : string) : Diagnosis :=
  {| crop_type := crop; disease_name := disease;
     overall_health := "Unknown"; confidence := S754_zero false;
     issues := []; recommendations := [] |}.

Definition vi_threshold : float := lit 3 10.

Definition low_vi_issue : string :=
  "Low vegetation index detected (stress/disease likely)".
Definition low_vi_recommendation : string :=
  "Inspect for disease, water stress, or nutrient deficiency".
Definition critical_issue : string :=
  "CRITICAL: Multiple stress factors detected".
Definition critical_recommendation : string :=
  "Immediate intervention required".
Definition default_recommendation : string :=
  "Continue regular monitoring".
Definition stress_recommendation : string :=
  "Check irrigation and nutrient levels".
Definition weed_recommendation : string :=
  "Consider targeted herbicide application or manual removal".
Definition pest_recommendation : string :=
  "Monitor pest population and apply IPM strategies".

Definition disease_issue (disease : string) (c : float) : string :=
  "Disease detected: " ++ disease ++ " (confidence: " ++ format_pct2 c ++ ")".
Definition disease_recommendation (disease : string) : string :=
  "Apply appropriate treatment for " ++ disease.
Definition stress_issue (c : float) : string :=
  "Crop stress detected (confidence: " ++ format_pct2 c ++ ")".
Definition weed_issue (n : Z) : string :=
  str_of_int n ++ " potential weed(s) detected".
Definition pest_issue (n : Z) : string :=
  str_of_int n ++ " potential pest(s) detected".

(** Rule 1: vegetation index analysis *)
Definition rule1 (avg_vi : float) (d : Diagnosis) : Diagnosis :=
  if lt avg_vi vi_threshold
  then append_recommendation low_vi_recommendation (append_issue low_vi_issue d)
  else d.

(** Rule 2: health classification *)
Definition rule2 (health_status : string) (health_confidence : float)
           (disease : string) (d : Diagnosis) : Diagnosis :=
  let d := set_health health_status health_confidence d in
  if String.eqb health_status "Diseased" then
    append_recommendation (disease_recommendation disease)
      (append_issue (disease_issue disease health_confidence) d)
  else if String.eqb health_status "Stressed" then
    append_recommendation stress_recommendation
      (append_issue (stress_issue health_confidence) d)
  else d.

(** [sum(1 for d in detections if d['category'] == c)] *)
Definition count_category (c : string) (detections : list Detection) : Z :=
  fold_left Z.add
    (map (fun _ => 1) (filter (fun d => String.eqb (category d) c) detections))
    0.

(** Rule 3: weed/pest detection *)
Definition rule3 (detections : list Detection) (d : Diagnosis) : Diagnosis :=
  let weed_count := count_category "weed" detections in
  let pest_count := count_category "pest" detections in
  let d := if 0 <? weed_count
           then append_recommendation weed_recommendation
                  (append_issue (weed_issue weed_count) d)
           else d in
  if 0 <? pest_count
  then append_recommendation pest_recommendation
         (append_issue (pest_issue pest_count) d)
  else d.

(** Rule 4: combined decision *)
Definition rule4 (avg_vi : float) (health_status : string) (d : Diagnosis)
  : Diagnosis :=
  if (lt avg_vi vi_threshold && String.eqb health_status "Diseased")%bool
  then append_recommendation critical_recommendation
         (append_issue critical_issue d)
  else d.

(** Default recommendations: [if not diagnosis['recommendations']] *)
Definition rule5 (d : Diagnosis) : Diagnosis :=
  match recommendations d with
  | [] => append_recommendation default_recommendation d
  | _ :: _ => d
  end.

(** The diagnosis after the four rules, before the default is applied. *)
Definition apply_rules (avg_vi : float) (health_status : string)
           (health_confidence : float) (detections : list Detection)
           (disease crop : string) : Diagnosis :=
  rule4 avg_vi health_status
    (rule3 detections
       (rule2 health_status health_confidence disease
          (rule1 avg_vi (new_diagnosis crop disease)))).

Section FuseResults.

(** The segmentation mask and the vegetation-index array come from the
    upstream models; [np_mean] is numpy's [mean]. *)
Variable Mask : Type.
Variable ndarray : Type.
Variable np_mean : ndarray -> float.

(** [FusionEngine.fuse_results], in state-passing style: the diagnosis
    and the engine after the call. *)
Definition fuse_results (self : FusionEngine) (segmentation_mask : Mask)
           (health_status : string) (health_confidence : float)
           (detections : list Detection) (vegetation_index : ndarray)
           (disease crop : string) : Diagnosis * FusionEngine :=
  let avg_vi := np_mean vegetation_index in
  (rule5 (apply_rules avg_vi health_status health_confidence detections
            disease crop),
   self).

End FuseResults.

Arguments fuse_results {Mask ndarray} np_mean self segmentation_mask
  health_status health_confidence detections vegetation_index disease crop.

(** [np.mean] of a scalar is that scalar: the call [fuse_results(mask, ...,
    vegetation_index=0.1, ...)] of the spec's examples. *)
Definition scalar_mean (x : float) : float := x.

(** The spec's [fuse(avg_vi, health, detections)] on a fresh engine, the
    health record given by its four fields. *)
Definition fuse (avg_vi : float) (status : string) (conf : float)
           (disease crop : string) (detections : list Detection) : Diagnosis :=
  fst (fuse_results scalar_mean FusionEngine_init tt
         status conf detections avg_vi disease crop).

End Fusion.

(** ** The weed/pest detector *)

Module Detector.

(** One box of a YOLO result: [box.xyxy[0]], [box.conf[0]], [box.cls[0]]. *)
Record Box : Type := mkBox {
  xyxy : float * float * float * float;
  conf : float;
  cls : float
}.

(** One element of what the YOLO model returns: its boxes and the [names]
    dict from a class number to a label. *)
Record YoloResult : Type := mkYoloResult {
  boxes : list Box;
  names : Z -> option string
}.

(** [result.names[cls]]: a missing key raises [KeyError], whose message is
    the key. *)
Definition names_get (r : YoloResult) (k : Z) : result string :=
  match names r k with
  | Some l => Ok l
  | None => Raise (str_of_int k)
  end.

Definition weed_keywords : list string := ["plant"; "potted plant"].
Definition pest_keywords : list string := ["bird"; "insect"; "bee"].

(** [WeedPestDetector._categorize_detection]; [None] is Python's [None]. *)
Definition _categorize_detection (label : string) : option string :=
  let label_lower := lower label in
  if any_in weed_keywords label_lower then Some "weed"
  else if any_in pest_keywords label_lower then Some "pest"
  else None.

(** The categories a detection of [detect] can carry. *)
Definition weed_or_pest (x : Detection) : Prop :=
  category x = "weed" \/ category x = "pest".

(** [if category:] *)
Definition category_truthy (c : option string) : bool :=
  match c with
  | Some s => truthy s
  | None => false
  end.

(** The body of the inner loop of [detect], for one box. *)
Definition detect_box (r : YoloResult) (detections : list Detection) (box : Box)
  : result (list Detection) :=
  let '(x1, y1, x2, y2) := xyxy box in
  let conf := conf box in
  cls <- int_of_float (cls box) ;;
  label <- names_get r cls ;;
  match _categorize_detection label with
  | Some category =>
      if truthy category then
        ix1 <- int_of_float x1 ;;
        iy1 <- int_of_float y1 ;;
        ix2 <- int_of_float x2 ;;
        iy2 <- int_of_float y2 ;;
        Ok (detections ++
              [ {| bbox := [ix1; iy1; ix2; iy2]; det_confidence := conf;
                   label := label; category := category |} ])%list
      else Ok detections
  | None => Ok detections
  end.

(** The body of the outer loop, for one result. *)
Definition detect_result (detections : list Detection) (r : YoloResult)
  : result (list Detection) :=
  for_each (detect_box r) (boxes r) detections.

Section Detect.

Variable Image : Type.

(** A [WeedPestDetector] after [__init__]: whether YOLO was loaded, and
    the loaded model, whose call may raise. *)
Record WeedPestDetector : Type := mkWeedPestDetector {
  available : bool;
  model : Image -> result (list YoloResult)
}.

(** The [try] block of [detect]. *)
Definition detect_try (self : WeedPestDetector) (image : Image)
  : result (list Detection) :=
  results <- model self image ;;
  for_each detect_result results [].

(** [WeedPestDetector.detect] *)
Definition detect (self : WeedPestDetector) (image : Image)
  : list Detection * string :=
  if negb (available self) then ([], "YOLOv8 not available")
  else match detect_try self image with
       | Ok detections => (detections, "Success")
       | Raise e => ([], "Detection failed: " ++ e)
       end.

End Detect.

Arguments available {Image} _.
Arguments model {Image} _ _.
Arguments detect_try {Image} _ _.
Arguments detect {Image} _ _.

End Detector.

(** A detection of the given category, the other fields being irrelevant to
    the fusion rules. *)
Definition detection_of (c : string) : Detection :=
  {| bbox := [0; 0; 1; 1]; det_confidence := lit 1 2; label := "";
     category := c |}.

(** Sample detectors over a one-point image type: part of the COCO label
    table, a result with a potted plant, a bird and a person, a detector
    returning it, and a detector whose model raises. *)
Definition coco_names (k : Z) : option string :=
  if k =? 0 then Some "person"
  else if k =? 14 then Some "bird"
  else if k =? 58 then Some "potted plant"
  else None.

Definition sample_box (k : Z) : Detector.Box :=
  {| Detector.xyxy := (lit 21 2, lit 40 1, lit 1999 10, lit 300 1);
     Detector.conf := lit 3 4;
     Detector.cls := of_int k |}.

Definition sample_result : Detector.YoloResult :=
  {| Detector.boxes := [sample_box 58; sample_box 14; sample_box 0];
     Detector.names := coco_names |}.

Definition sample_detector : Detector.WeedPestDetector unit :=
  Detector.mkWeedPestDetector unit true (fun _ => Ok [sample_result]).

Definition failing_detector : Detector.WeedPestDetector unit :=
  Detector.mkWeedPestDetector unit true (fun _ => Raise "CUDA out of memory").

Definition missing_detector : Detector.WeedPestDetector unit :=
  Detector.mkWeedPestDetector unit false (fun _ => Raise "no model").

(** ** The label parsing of the health classifier *)

Module Classifier.

(** [s] without the prefix [p], when [p] is a prefix of [s]. *)
Fixpoint strip_prefix (p s : string) : option string :=
  match p with
  | EmptyString => Some s
  | String a p' =>
      match s with
      | EmptyString => None
      | String b s' => if Ascii.eqb a b then strip_prefix p' s' else None
      end
  end.

(** [s.split(sep, 1)] for a non-empty [sep]: the text before and after the
    first occurrence of [sep], or [s] alone when there is none. *)
Fixpoint split1 (sep s : string) : list string :=
  match strip_prefix sep s with
  | Some rest => [""; rest]
  | None =>
      match s with
      | EmptyString => [""]
      | String c s' =>
          match split1 sep s' with
          | a :: tl => String c a :: tl
          | [] => [String c ""]
          end
      end
  end.

(** [s.replace(old, new)] for one-character [old] and [new]. *)
Fixpoint replace (old new : ascii) (s : string) : string :=
  match s with
  | EmptyString => EmptyString
  | String c s' =>
      String (if Ascii.eqb c old then new else c) (replace old new s')
  end.

(** The end of [HealthClassificationModel.classify_health]: from the label
    [disease_full] of the most probable class and its probability to
    [(status, confidence, disease_name, crop_type)].  Unpacking a split that
    has not two parts raises. *)
Definition health_of_label (disease_full : string) (confidence : float)
  : result (string * float * string * string) :=
  parsed <-
    (if str_in "___" disease_full then
       match split1 "___" disease_full with
       | [crop_type; disease_name] =>
           Ok (replace "_" " " crop_type, replace "_" " " disease_name)
       | _ => Raise "not enough values to unpack (expected 2, got 1)"
       end
     else Ok ("Unknown", replace "_" " " disease_full)) ;;
  let '(crop_type, disease_name) := parsed in
  let status :=
    if str_in "healthy" (lower disease_name) then "Healthy" else "Diseased" in
  Ok (status, confidence, disease_name, crop_type).

End Classifier.

(** Whether [int(x)] is defined. *)
Definition is_finite (x : float) : bool :=
  match x with
  | S754_nan | S754_infinity _ => false
  | _ => true
  end.

(** ** The analysis pipeline *)

Module Analyzer.

(** The [results] dict of [analyze]. *)
Record Results (Image Mask ndarray : Type) : Type := mkResults {
  original : Image;
  resized : Image;
  segmentation_mask : Mask;
  detections : list Detection;
  health_map : Image;
  vegetation_index : ndarray;
  diagnosis : Diagnosis
}.

Arguments original {Image Mask ndarray} _.
Arguments resized {Image Mask ndarray} _.
Arguments segmentation_mask {Image Mask ndarray} _.
Arguments detections {Image Mask ndarray} _.
Arguments health_map {Image Mask ndarray} _.
Arguments vegetation_index {Image Mask ndarray} _.
Arguments diagnosis {Image Mask ndarray} _.

Section Analyze.

Variable Image Tensor Mask ndarray : Type.
Variable np_mean : ndarray -> float.

(** An [AgriDroneAnalyzer] after [__init__].  The image operations and the
    models are those of OpenCV, torch and transformers: each is a call that
    returns or raises.  [classify] is the classifier up to the label and the
    probability of the most probable class. *)
Record AgriDroneAnalyzer : Type := mkAgriDroneAnalyzer {
  load_image : Image -> result Image;
  preprocess : Image -> result (Image * Image);
  preprocess_tensor : Image -> result Tensor;
  segment : Tensor -> result (Mask * Mask);
  classify : Tensor -> result (string * float);
  weed_pest_detector : Detector.WeedPestDetector Image;
  excess_green_index : Image -> result ndarray;
  create_health_map : ndarray -> result Image;
  fusion_engine : FusionEngine
}.

(** [HealthClassificationModel.classify_health] *)
Definition classify_health (self : AgriDroneAnalyzer) (image_tensor : Tensor)
  : result (string * float * string * string) :=
  top <- classify self image_tensor ;;
  let '(disease_full, confidence) := top in
  Classifier.health_of_label disease_full confidence.

(** [AgriDroneAnalyzer.analyze], without its progress messages: the results,
    the status the detector reported, and the fusion engine after the call. *)
Definition analyze (self : AgriDroneAnalyzer) (image_path : Image)
  : result (Results Image Mask ndarray * string * FusionEngine) :=
  image <- load_image self image_path ;;
  both <- preprocess self image ;;
  let '(original, resized) := both in
  image_tensor <- preprocess_tensor self image ;;
  masks <- segment self image_tensor ;;
  let '(seg_mask, crop_mask) := masks in
  health <- classify_health self image_tensor ;;
  let '(health_status, health_confidence, disease_name, crop_type) := health in
  let '(detections, det_status) :=
    Detector.detect (weed_pest_detector self) resized in
  exg_index <- excess_green_index self resized ;;
  health_map <- create_health_map self exg_index ;;
  let '(diagnosis, engine) :=
    Fusion.fuse_results np_mean (fusion_engine self) crop_mask health_status
      health_confidence detections exg_index disease_name crop_type in
  Ok ({| original := original; resized := resized;
         segmentation_mask := crop_mask; detections := detections;
         health_map := health_map; vegetation_index := exg_index;
         diagnosis := diagnosis |},
      det_status, engine).

End Analyze.

Arguments load_image {Image Tensor Mask ndarray} _ _.
Arguments preprocess {Image Tensor Mask ndarray} _ _.
Arguments preprocess_tensor {Image Tensor Mask ndarray} _ _.
Arguments segment {Image Tensor Mask ndarray} _ _.
Arguments classify {Image Tensor Mask ndarray} _ _.
Arguments weed_pest_detector {Image Tensor Mask ndarray} _.
Arguments excess_green_index {Image Tensor Mask ndarray} _ _.
Arguments create_health_map {Image Tensor Mask ndarray} _ _.
Arguments fusion_engine {Image Tensor Mask ndarray} _.
Arguments classify_health {Image Tensor Mask ndarray} _ _.
Arguments analyze {Image Tensor Mask ndarray} np_mean _ _.

(** The colours of [visualize_results]: the box of a detection, and the
    background of the diagnosis panel. *)
Definition box_color (det : Detection) : Z * Z * Z :=
  if String.eqb (category det) "weed" then (255, 0, 0) else (255, 165, 0).

Definition bg_color (diagnosis : Diagnosis) : string :=
  if String.eqb (overall_health diagnosis) "Healthy" then "#d4edda"
  else if String.eqb (overall_health diagnosis) "Stressed" then "#fff3cd"
  else "#f8d7da".

End Analyzer.

(** A sample analyzer over one-point images: every operation returns, the
    classifier answers with the given label at probability 0.9, and the
    detector is the given one. *)
Definition sample_analyzer (disease_full : string)
           (detector : Detector.WeedPestDetector unit)
  : Analyzer.AgriDroneAnalyzer unit unit unit float :=
  Analyzer.mkAgriDroneAnalyzer unit unit unit float
    (fun i => Ok i) (fun i => Ok (i, i)) (fun _ => Ok tt)
    (fun _ => Ok (tt, tt)) (fun _ => Ok (disease_full, lit 9 10))
    detector (fun _ => Ok (lit 1 2)) (fun _ => Ok tt) FusionEngine_init.

(** What [detect] keeps of a box: four integers, and the category of its
    label. *)
Definition well_formed (x : Detection) : Prop :=
  List.length (bbox x) = 4%nat
  /\ Detector._categorize_detection (label x) = Some (category x).

(** A box whose class number is NaN, and a result with a potted plant
    followed by such a box and a bird. *)
Definition nan_box : Detector.Box :=
  {| Detector.xyxy := (lit 21 2, lit 40 1, lit 1999 10, lit 300 1);
     Detector.conf := lit 3 4;
     Detector.cls := S754_nan |}.

Definition broken_result : Detector.YoloResult :=
  {| Detector.boxes := [sample_box 58; nan_box; sample_box 14];
     Detector.names := coco_names |}.

Definition broken_detector : Detector.WeedPestDetector unit :=
  Detector.mkWeedPestDetector unit true (fun _ => Ok [broken_result]).

(** ** The fusion engine on a heap

    The same method with Python's objects made explicit.  A heap is a list
    of objects and a reference is an index in it.  The [diagnosis] dict and
    its two lists are objects the method allocates; [append] and item
    assignment update them in place; [self] is a reference to the engine
    object. *)

Module Heap.

Inductive obj : Type :=
| ListObj (items : list string)
| DictObj (crop_type disease_name overall_health : string)
          (confidence : float) (issues recommendations : nat)
| EngineObj (rules : list (string * list string)).

Definition heap : Type := list obj.

(** A computation on the heap; [None] is an access through a reference of
    the wrong kind. *)
Definition M (A : Type) : Type := heap -> option (A * heap).

Definition ret {A : Type} (a : A) : M A := fun h => Some (a, h).

Definition hbind {A B : Type} (m : M A) (k : A -> M B) : M B :=
  fun h => match m h with
           | Some (a, h') => k a h'
           | None => None
           end.

Notation "x <~ m ;; k" := (hbind m (fun x => k))
  (at level 61, m at next level, right associativity).

Fixpoint update (l : nat) (o : obj) (h : heap) : heap :=
  match h with
  | [] => []
  | x :: t => match l with
              | O => o :: t
              | S l' => x :: update l' o t
              end
  end.

(** A new object, at the end of the heap. *)
Definition alloc (o : obj) : M nat :=
  fun h => Some (List.length h, (h ++ [o])%list).

Definition list_read (l : nat) : M (list string) :=
  fun h => match nth_error h l with
           | Some (ListObj xs) => Some (xs, h)
           | _ => None
           end.

(** [l.append(s)] *)
Definition list_append (l : nat) (s : string) : M unit :=
  fun h => match nth_error h l with
           | Some (ListObj xs) => Some (tt, update l (ListObj (xs ++ [s])) h)
           | _ => None
           end.

(** [diagnosis['issues']] and [diagnosis['recommendations']] *)
Definition get_issues (d : nat) : M nat :=
  fun h => match nth_error h d with
           | Some (DictObj _ _ _ _ i _) => Some (i, h)
           | _ => None
           end.

Definition get_recommendations (d : nat) : M nat :=
  fun h => match nth_error h d with
           | Some (DictObj _ _ _ _ _ r) => Some (r, h)
           | _ => None
           end.

(** [diagnosis['overall_health'] = v] and [diagnosis['confidence'] = v] *)
Definition set_overall_health (d : nat) (v : string) : M unit :=
  fun h => match nth_error h d with
           | Some (DictObj ct dn _ c i r) =>
               Some (tt, update d (DictObj ct dn v c i r) h)
           | _ => None
           end.

Definition set_confidence (d : nat) (v : float) : M unit :=
  fun h => match nth_error h d with
           | Some (DictObj ct dn oh _ i r) =>
               Some (tt, update d (DictObj ct dn oh v i r) h)
           | _ => None
           end.

(** [diagnosis['issues'].append(s)] and
    [diagnosis['recommendations'].append(s)] *)
Definition issues_append (d : nat) (s : string) : M unit :=
  l <~ get_issues d ;; list_append l s.

Definition recommendations_append (d : nat) (s : string) : M unit :=
  l <~ get_recommendations d ;; list_append l s.

(** The dict behind a reference, its two lists read through. *)
Definition snapshot (h : heap) (d : nat) : option Diagnosis :=
  match nth_error h d with
  | Some (DictObj ct dn oh c i r) =>
      match nth_error h i, nth_error h r with
      | Some (ListObj il), Some (ListObj rl) =>
          Some {| crop_type := ct; disease_name := dn; overall_health := oh;
                  confidence := c; issues := il; recommendations := rl |}
      | _, _ => None
      end
  | _ => None
  end.

Section FuseOnHeap.

Variable Mask : Type.
Variable ndarray : Type.
Variable np_mean : ndarray -> float.

(** [FusionEngine.fuse_results] on the heap: the reference to the
    diagnosis it returns. *)
Definition fuse_results_on_heap (self : nat) (segmentation_mask : Mask)
           (health_status : string) (health_confidence : float)
           (detections : list Detection) (vegetation_index : ndarray)
           (disease crop : string) : M nat :=
  i <~ alloc (ListObj []) ;;
  r <~ alloc (ListObj []) ;;
  diagnosis <~ alloc (DictObj crop disease "Unknown" (S754_zero false) i r) ;;
  let avg_vi := np_mean vegetation_index in
  _ <~ (if lt avg_vi Fusion.vi_threshold then
          _ <~ issues_append diagnosis Fusion.low_vi_issue ;;
          recommendations_append diagnosis Fusion.low_vi_recommendation
        else ret tt) ;;
  _ <~ set_overall_health diagnosis health_status ;;
  _ <~ set_confidence diagnosis health_confidence ;;
  _ <~ (if String.eqb health_status "Diseased" then
          _ <~ issues_append diagnosis
                 (Fusion.disease_issue disease health_confidence) ;;
          recommendations_append diagnosis
            (Fusion.disease_recommendation disease)
        else if String.eqb health_status "Stressed" then
          _ <~ issues_append diagnosis (Fusion.stress_issue health_confidence) ;;
          recommendations_append diagnosis Fusion.stress_recommendation
        else ret tt) ;;
  let weed_count := Fusion.count_category "weed" detections in
  let pest_count := Fusion.count_category "pest" detections in
  _ <~ (if 0 <? weed_count then
          _ <~ issues_append diagnosis (Fusion.weed_issue weed_count) ;;
          recommendations_append diagnosis Fusion.weed_recommendation
        else ret tt) ;;
  _ <~ (if 0 <? pest_count then
          _ <~ issues_append diagnosis (Fusion.pest_issue pest_count) ;;
          recommendations_append diagnosis Fusion.pest_recommendation
        else ret tt) ;;
  _ <~ (if (lt avg_vi Fusion.vi_threshold
            && String.eqb health_status "Diseased")%bool then
          _ <~ issues_append diagnosis Fusion.critical_issue ;;
          recommendations_append diagnosis Fusion.critical_recommendation
        else ret tt) ;;
  l <~ get_recommendations diagnosis ;;
  recs <~ list_read l ;;
  _ <~ (match recs with
        | [] => recommendations_append diagnosis Fusion.default_recommendation
        | _ :: _ => ret tt
        end) ;;
  ret diagnosis.

End FuseOnHeap.

Arguments fuse_results_on_heap {Mask ndarray} np_mean self segmentation_mask
  health_status health_confidence detections vegetation_index disease crop.

(** The heap [h] followed by the three objects of a diagnosis. *)
Definition with_diagnosis (h : heap) (d : Diagnosis) : heap :=
  (h ++ [ListObj (issues d); ListObj (recommendations d);
         DictObj (crop_type d) (disease_name d) (overall_health d)
           (confidence d) (List.length h) (S (List.length h))])%list.

End Heap.

(** [np.mean] of a one-dimensional float64 array of a few elements: the sum
    from left to right, divided by the number of elements; NaN for the empty
    array. *)
Definition list_mean (a : list float) : float :=
  SFdiv prec emax (fold_left (SFadd prec emax) a (S754_zero false))
    (of_int (Z.of_nat (List.length a))).

(** A heap holding an engine and an earlier diagnosis. *)
Definition sample_heap : Heap.heap :=
  [Heap.EngineObj (rules FusionEngine_init);
   Heap.ListObj ["earlier issue"]; Heap.ListObj ["earlier recommendation"];
   Heap.DictObj "Corn" "rust" "Diseased" (lit 1 2) 1 2].

(** * Properties *)

(** ** Literals and formatting on the values the examples use *)

Example lit_03 : lit 3 10 = S754_finite false 5404319552844595 (-54).
Proof. reflexivity. Qed.

Example lit_03_nearest :
  Z.abs (10 * 5404319552844595 - 3 * 2 ^ 54) * 2 <= 10.
Proof. vm_compute. discriminate. Qed.

Example lt_threshold_ex :
  lt (lit 29 100) (lit 3 10) = true
  /\ lt (lit 31 100) (lit 3 10) = false
  /\ lt (lit 3 10) (lit 3 10) = false
  /\ lt S754_nan (lit 3 10) = false
  /\ lt (S754_zero true) (lit 3 10) = true
  /\ lt (S754_infinity true) (lit 3 10) = true.
Proof. vm_compute. repeat split. Qed.

Example format_09 : format_pct2 (lit 9 10) = "90.00%".
Proof. vm_compute. reflexivity. Qed.

Example format_third : format_pct2 (lit 1 3) = "33.33%".
Proof. vm_compute. reflexivity. Qed.

Example format_tie_even : format_pct2 (lit 125 100000) = "0.12%".
Proof. vm_compute. reflexivity. Qed.

Example lower_ex : lower "Potted Plant" = "potted plant".
Proof. reflexivity. Qed.

Example str_in_ex : str_in "plant" "potted plant" = true /\ str_in "bee" "bird" = false.
Proof. split; reflexivity. Qed.

Example int_of_float_ex :
  int_of_float (lit 1599 100) = Ok 15 /\ int_of_float (SFopp (lit 1599 100)) = Ok (-15).
Proof. split; reflexivity. Qed.

(** ** The fusion rules only append *)

Module FusionFacts.
Import Fusion.

Lemma count_category_fold (l : list Z) (acc : Z) :
  (forall x, In x l -> x = 1) ->
  fold_left Z.add l acc = acc + Z.of_nat (List.length l).
Proof.
  revert acc; induction l as [|x l IH]; intros acc H; simpl.
  - lia.
  - rewrite IH by (intros y Hy; apply H; now right).
    rewrite (H x) by now left. lia.
Qed.

Lemma count_category_length (c : string) (dets : list Detection) :
  count_category c dets
  = Z.of_nat (List.length (filter (fun d => String.eqb (category d) c) dets)).
Proof.
  unfold count_category. rewrite count_category_fold.
  - now rewrite List.length_map.
  - intros x Hx. apply in_map_iff in Hx. now destruct Hx as [_ [<- _]].
Qed.


(** What rule 3 appends, as lists. *)
Lemma rule3_issues (dets : list Detection) (d : Diagnosis) :
  issues (rule3 dets d)
  = (issues d
     ++ (if 0 <? count_category "weed" dets
         then [weed_issue (count_category "weed" dets)] else [])
     ++ (if 0 <? count_category "pest" dets
         then [pest_issue (count_category "pest" dets)] else []))%list.
Proof.
  unfold rule3.
  destruct (0 <? count_category "weed" dets);
    destruct (0 <? count_category "pest" dets); simpl;
    rewrite ?app_nil_r, <- ?app_assoc; reflexivity.
Qed.

Lemma rule3_recommendations (dets : list Detection) (d : Diagnosis) :
  recommendations (rule3 dets d)
  = (recommendations d
     ++ (if 0 <? count_category "weed" dets then [weed_recommendation] else [])
     ++ (if 0 <? count_category "pest" dets then [pest_recommendation] else []))%list.
Proof.
  unfold rule3.
  destruct (0 <? count_category "weed" dets);
    destruct (0 <? count_category "pest" dets); simpl;
    rewrite ?app_nil_r, <- ?app_assoc; reflexivity.
Qed.

Lemma rule1_issues (avg : float) (d : Diagnosis) :
  issues (rule1 avg d)
  = (issues d ++ (if lt avg vi_threshold then [low_vi_issue] else []))%list.
Proof.
  unfold rule1. destruct (lt avg vi_threshold); simpl;
    rewrite ?app_nil_r; reflexivity.
Qed.

Lemma rule1_recommendations (avg : float) (d : Diagnosis) :
  recommendations (rule1 avg d)
  = (recommendations d
     ++ (if lt avg vi_threshold then [low_vi_recommendation] else []))%list.
Proof.
  unfold rule1. destruct (lt avg vi_threshold); simpl;
    rewrite ?app_nil_r; reflexivity.
Qed.

Lemma rule2_issues (hs : string) (hc : float) (dn : string) (d : Diagnosis) :
  issues (rule2 hs hc dn d)
  = (issues d
     ++ (if String.eqb hs "Diseased" then [disease_issue dn hc]
         else if String.eqb hs "Stressed" then [stress_issue hc] else []))%list.
Proof.
  unfold rule2. destruct (String.eqb hs "Diseased");
    [|destruct (String.eqb hs "Stressed")]; simpl;
    rewrite ?app_nil_r; reflexivity.
Qed.

Lemma rule2_recommendations (hs : string) (hc : float) (dn : string)
      (d : Diagnosis) :
  recommendations (rule2 hs hc dn d)
  = (recommendations d
     ++ (if String.eqb hs "Diseased" then [disease_recommendation dn]
         else if String.eqb hs "Stressed" then [stress_recommendation]
              else []))%list.
Proof.
  unfold rule2. destruct (String.eqb hs "Diseased");
    [|destruct (String.eqb hs "Stressed")]; simpl;
    rewrite ?app_nil_r; reflexivity.
Qed.

Lemma rule4_issues (avg : float) (hs : string) (d : Diagnosis) :
  issues (rule4 avg hs d)
  = (issues d
     ++ (if (lt avg vi_threshold && String.eqb hs "Diseased")%bool
         then [critical_issue] else []))%list.
Proof.
  unfold rule4. destruct (lt avg vi_threshold && String.eqb hs "Diseased")%bool;
    simpl; rewrite ?app_nil_r; reflexivity.
Qed.

Lemma rule4_recommendations (avg : float) (hs : string) (d : Diagnosis) :
  recommendations (rule4 avg hs d)
  = (recommendations d
     ++ (if (lt avg vi_threshold && String.eqb hs "Diseased")%bool
         then [critical_recommendation] else []))%list.
Proof.
  unfold rule4. destruct (lt avg vi_threshold && String.eqb hs "Diseased")%bool;
    simpl; rewrite ?app_nil_r; reflexivity.
Qed.

Lemma rule5_issues (d : Diagnosis) : issues (rule5 d) = issues d.
Proof. unfold rule5. now destruct (recommendations d). Qed.

Lemma rule5_recommendations (d : Diagnosis) :
  recommendations (rule5 d)
  = match recommendations d with
    | [] => [default_recommendation]
    | r :: rs => r :: rs
    end.
Proof. unfold rule5. now destruct (recommendations d) eqn:E; simpl; rewrite ?E. Qed.

(** The health fields after each step. *)
Lemma rule_health (avg : float) (hs : string) (hc : float)
      (dets : list Detection) (dn ct : string) :
  let d := rule5 (apply_rules avg hs hc dets dn ct) in
  overall_health d = hs /\ confidence d = hc
  /\ crop_type d = ct /\ disease_name d = dn.
Proof.
  unfold apply_rules, rule5, rule4, rule3, rule2, rule1.
  destruct (lt avg vi_threshold); destruct (String.eqb hs "Diseased");
    destruct (String.eqb hs "Stressed");
    destruct (0 <? count_category "weed" dets);
    destruct (0 <? count_category "pest" dets); simpl; auto.
Qed.

(** The issues of a fusion pass: what each rule appends, in rule order. *)
Lemma apply_rules_issues (avg : float) (hs : string) (hc : float)
      (dets : list Detection) (dn ct : string) :
  issues (apply_rules avg hs hc dets dn ct)
  = ((if lt avg vi_threshold then [low_vi_issue] else [])
     ++ (if String.eqb hs "Diseased" then [disease_issue dn hc]
         else if String.eqb hs "Stressed" then [stress_issue hc] else [])
     ++ (if 0 <? count_category "weed" dets
         then [weed_issue (count_category "weed" dets)] else [])
     ++ (if 0 <? count_category "pest" dets
         then [pest_issue (count_category "pest" dets)] else [])
     ++ (if (lt avg vi_threshold && String.eqb hs "Diseased")%bool
         then [critical_issue] else []))%list.
Proof.
  unfold apply_rules.
  rewrite rule4_issues, rule3_issues, rule2_issues, rule1_issues. simpl.
  rewrite <- !app_assoc. reflexivity.
Qed.

Lemma apply_rules_recommendations (avg : float) (hs : string) (hc : float)
      (dets : list Detection) (dn ct : string) :
  recommendations (apply_rules avg hs hc dets dn ct)
  = ((if lt avg vi_threshold then [low_vi_recommendation] else [])
     ++ (if String.eqb hs "Diseased" then [disease_recommendation dn]
         else if String.eqb hs "Stressed" then [stress_recommendation] else [])
     ++ (if 0 <? count_category "weed" dets then [weed_recommendation] else [])
     ++ (if 0 <? count_category "pest" dets then [pest_recommendation] else [])
     ++ (if (lt avg vi_threshold && String.eqb hs "Diseased")%bool
         then [critical_recommendation] else []))%list.
Proof.
  unfold apply_rules.
  rewrite rule4_recommendations, rule3_recommendations,
    rule2_recommendations, rule1_recommendations. simpl.
  rewrite <- !app_assoc. reflexivity.
Qed.

End FusionFacts.

(** ** The fusion engine: claims about [fuse_results] *)

Import Fusion FusionFacts.

Section FuseResultsFacts.

Variable Mask : Type.
Variable ndarray : Type.
Variable np_mean : ndarray -> float.

Lemma fuse_results_fst (self : FusionEngine) (mask : Mask) (hs : string)
      (hc : float) (dets : list Detection) (vi : ndarray) (dn ct : string) :
  fst (fuse_results np_mean self mask hs hc dets vi dn ct)
  = rule5 (apply_rules (np_mean vi) hs hc dets dn ct).
Proof. reflexivity. Qed.

(** C1: [fuse_results] always returns a diagnosis (and leaves the engine as
    it was); the recommendations of that diagnosis are never empty; when the
    four rules appended no recommendation the list is exactly the default
    entry, and otherwise it is what the rules appended. *)
Theorem fuse_results_recommendations_nonempty
        (self : FusionEngine) (mask : Mask) (hs : string) (hc : float)
        (dets : list Detection) (vi : ndarray) (dn ct : string) :
  exists d : Diagnosis,
    fuse_results np_mean self mask hs hc dets vi dn ct = (d, self)
    /\ recommendations d <> []
    /\ (recommendations (apply_rules (np_mean vi) hs hc dets dn ct) = []
        -> recommendations d = [default_recommendation])
    /\ (recommendations (apply_rules (np_mean vi) hs hc dets dn ct) <> []
        -> recommendations d
           = recommendations (apply_rules (np_mean vi) hs hc dets dn ct)).
Proof.
  eexists. split; [reflexivity|].
  rewrite rule5_recommendations.
  destruct (recommendations (apply_rules (np_mean vi) hs hc dets dn ct)) as [|r rs].
  - repeat split; [discriminate | congruence].
  - repeat split; [discriminate | discriminate].
Qed.

(** C3, as amended: on [avg_vi = 0.8], health [Healthy, 0.99, "healthy",
    "Corn"] and no detection, the issues are empty and the recommendations
    are the one-element list ["Continue regular monitoring"]. *)
Theorem fuse_results_healthy_corn
        (self : FusionEngine) (mask : Mask) (vi : ndarray) :
  np_mean vi = lit 8 10 ->
  let d := fst (fuse_results np_mean self mask "Healthy" (lit 99 100) [] vi
                  "healthy" "Corn") in
  issues d = [] /\ recommendations d = ["Continue regular monitoring"].
Proof.
  intros H d. subst d. rewrite fuse_results_fst, H. split; reflexivity.
Qed.

(** C2, as amended: on [avg_vi = 0.1], health [Diseased, 0.9, "Leaf Blight",
    "Tomato"] and no detection, the issues are three entries: the low
    vegetation index entry, a disease entry that mentions "Leaf Blight" and
    "90.00%" (the confidence as a percentage with two decimal digits), and
    the CRITICAL entry. *)
Theorem fuse_results_leaf_blight
        (self : FusionEngine) (mask : Mask) (vi : ndarray) :
  np_mean vi = lit 1 10 ->
  let d := fst (fuse_results np_mean self mask "Diseased" (lit 9 10) [] vi
                  "Leaf Blight" "Tomato") in
  issues d = [low_vi_issue;
              "Disease detected: Leaf Blight (confidence: 90.00%)";
              critical_issue]
  /\ (3 <= List.length (issues d))%nat
  /\ (exists i, In i (issues d)
                /\ str_in "Leaf Blight" i = true /\ str_in "90.00%" i = true)
  /\ str_in "CRITICAL" critical_issue = true
  /\ str_in "low vegetation index" (lower low_vi_issue) = true.
Proof.
  intros H d. subst d. rewrite fuse_results_fst, H.
  assert (E : issues (rule5 (apply_rules (lit 1 10) "Diseased" (lit 9 10) []
                               "Leaf Blight" "Tomato"))
              = [low_vi_issue;
                 "Disease detected: Leaf Blight (confidence: 90.00%)";
                 critical_issue]) by (vm_compute; reflexivity).
  rewrite E. repeat split.
  - simpl. lia.
  - exists "Disease detected: Leaf Blight (confidence: 90.00%)".
    repeat split; [simpl; auto | vm_compute; reflexivity ..].
Qed.

End FuseResultsFacts.

Lemma fuse_results_recommendations_nonempty_witness :
  recommendations (apply_rules (scalar_mean (lit 8 10)) "Healthy" (lit 99 100)
                     [] "healthy" "Corn") = []
  /\ exists d : Diagnosis,
      fuse_results scalar_mean FusionEngine_init tt
        "Healthy" (lit 99 100) [] (lit 8 10) "healthy" "Corn"
      = (d, FusionEngine_init)
      /\ recommendations d = [default_recommendation].
Proof.
  split; [reflexivity|].
  destruct (fuse_results_recommendations_nonempty unit float scalar_mean
              FusionEngine_init tt "Healthy" (lit 99 100) [] (lit 8 10)
              "healthy" "Corn") as [d [E [_ [H _]]]].
  exists d. split; [exact E | apply H; reflexivity].
Defined.

Lemma fuse_results_healthy_corn_witness :
  scalar_mean (lit 8 10) = lit 8 10
  /\ issues (fuse (lit 8 10) "Healthy" (lit 99 100) "healthy" "Corn" []) = []
  /\ recommendations (fuse (lit 8 10) "Healthy" (lit 99 100) "healthy" "Corn" [])
     = ["Continue regular monitoring"].
Proof.
  split; [reflexivity|].
  apply (fuse_results_healthy_corn unit float scalar_mean FusionEngine_init tt
           (lit 8 10)).
  reflexivity.
Defined.

(** C3 as stated fails: the default entry begins with a capital letter, so
    the recommendations are not the list ["continue regular monitoring"]. *)
Lemma fuse_healthy_corn_not_lowercase :
  recommendations (fuse (lit 8 10) "Healthy" (lit 99 100) "healthy" "Corn" [])
  <> ["continue regular monitoring"].
Proof. vm_compute. discriminate. Qed.

Lemma fuse_results_leaf_blight_witness :
  scalar_mean (lit 1 10) = lit 1 10
  /\ issues (fuse (lit 1 10) "Diseased" (lit 9 10) "Leaf Blight" "Tomato" [])
     = [low_vi_issue;
        "Disease detected: Leaf Blight (confidence: 90.00%)";
        critical_issue].
Proof.
  split; [reflexivity|].
  apply (fuse_results_leaf_blight unit float scalar_mean FusionEngine_init tt
           (lit 1 10)).
  reflexivity.
Defined.

(** C2 as stated fails: no issue of that diagnosis mentions both
    "Leaf Blight" and "90.0%"; the confidence is printed as "90.00%". *)
Lemma fuse_leaf_blight_no_one_decimal :
  ~ exists i,
      In i (issues (fuse (lit 1 10) "Diseased" (lit 9 10) "Leaf Blight"
                      "Tomato" []))
      /\ str_in "Leaf Blight" i = true /\ str_in "90.0%" i = true.
Proof.
  intros [i [Hin [_ H]]].
  assert (E : issues (fuse (lit 1 10) "Diseased" (lit 9 10) "Leaf Blight"
                        "Tomato" [])
              = [low_vi_issue;
                 "Disease detected: Leaf Blight (confidence: 90.00%)";
                 critical_issue]) by (vm_compute; reflexivity).
  rewrite E in Hin. clear E. cbn [In] in Hin.
  destruct Hin as [<-|[<-|[<-|[]]]]; vm_compute in H; discriminate H.
Qed.

(** ** The vegetation threshold *)

Lemma weed_issue_not_low_vi (n : Z) : weed_issue n <> low_vi_issue.
Proof.
  unfold weed_issue, str_of_int, low_vi_issue.
  destruct (Z.to_int n) as [u|u]; [destruct u|]; cbn; discriminate.
Qed.

Lemma pest_issue_not_low_vi (n : Z) : pest_issue n <> low_vi_issue.
Proof.
  unfold pest_issue, str_of_int, low_vi_issue.
  destruct (Z.to_int n) as [u|u]; [destruct u|]; cbn; discriminate.
Qed.

Lemma disease_issue_not_low_vi (dn : string) (hc : float) :
  disease_issue dn hc <> low_vi_issue.
Proof. unfold disease_issue, low_vi_issue. cbn [append]. discriminate. Qed.

Lemma stress_issue_not_low_vi (hc : float) : stress_issue hc <> low_vi_issue.
Proof. unfold stress_issue, low_vi_issue. cbn [append]. discriminate. Qed.

Lemma disease_recommendation_not_low_vi (dn : string) :
  disease_recommendation dn <> low_vi_recommendation.
Proof.
  unfold disease_recommendation, low_vi_recommendation. cbn [append].
  discriminate.
Qed.

Lemma low_vi_issue_iff (avg : float) (hs : string) (hc : float)
      (dets : list Detection) (dn ct : string) :
  In low_vi_issue (issues (rule5 (apply_rules avg hs hc dets dn ct)))
  <-> lt avg vi_threshold = true.
Proof.
  rewrite rule5_issues, apply_rules_issues.
  destruct (lt avg vi_threshold) eqn:E; cbn [andb app].
  - split; [reflexivity | intros _; now left].
  - split; [|discriminate]. intros H.
    destruct (String.eqb hs "Diseased"); [|destruct (String.eqb hs "Stressed")];
      destruct (0 <? count_category "weed" dets);
      destruct (0 <? count_category "pest" dets);
      cbn [In app] in H;
      repeat match type of H with _ \/ _ => destruct H as [H|H] end;
      try contradiction;
      try (now apply disease_issue_not_low_vi in H);
      try (now apply stress_issue_not_low_vi in H);
      try (now apply weed_issue_not_low_vi in H);
      try (now apply pest_issue_not_low_vi in H).
Qed.

Lemma low_vi_recommendation_iff (avg : float) (hs : string) (hc : float)
      (dets : list Detection) (dn ct : string) :
  In low_vi_recommendation
     (recommendations (rule5 (apply_rules avg hs hc dets dn ct)))
  <-> lt avg vi_threshold = true.
Proof.
  rewrite rule5_recommendations, apply_rules_recommendations.
  destruct (lt avg vi_threshold) eqn:E; cbn [andb app].
  - split; [reflexivity | intros _; now left].
  - split; [|discriminate]. intros H.
    destruct (String.eqb hs "Diseased"); [|destruct (String.eqb hs "Stressed")];
      destruct (0 <? count_category "weed" dets);
      destruct (0 <? count_category "pest" dets);
      cbn [In app] in H;
      repeat match type of H with _ \/ _ => destruct H as [H|H] end;
      try contradiction;
      try (now apply disease_recommendation_not_low_vi in H);
      try discriminate H.
Qed.

Section FuseResultsRules.

Variable Mask : Type.
Variable ndarray : Type.
Variable np_mean : ndarray -> float.

(** C4: the vegetation rule compares strictly with the binary64 [0.3].  The
    low-vegetation-index issue and its recommendation are in the returned
    diagnosis exactly when [avg_vi < 0.3]; so an average equal to [0.3] does
    not trigger them, and a smaller one does, [0.2999] and the largest
    binary64 value below [0.3] among them. *)
Theorem vegetation_rule_strict_threshold
        (self : FusionEngine) (mask : Mask) (hs : string) (hc : float)
        (dets : list Detection) (vi : ndarray) (dn ct : string) :
  let d := fst (fuse_results np_mean self mask hs hc dets vi dn ct) in
  vi_threshold = lit 3 10
  /\ (In low_vi_issue (issues d) <-> lt (np_mean vi) (lit 3 10) = true)
  /\ (In low_vi_recommendation (recommendations d)
      <-> lt (np_mean vi) (lit 3 10) = true)
  /\ (np_mean vi = lit 3 10 ->
      ~ In low_vi_issue (issues d)
      /\ ~ In low_vi_recommendation (recommendations d))
  /\ (np_mean vi = lit 2999 10000 \/ np_mean vi = SFpred prec emax (lit 3 10) ->
      In low_vi_issue (issues d)
      /\ In low_vi_recommendation (recommendations d)).
Proof.
  intros d. subst d. rewrite fuse_results_fst.
  pose proof (low_vi_issue_iff (np_mean vi) hs hc dets dn ct) as Hi.
  pose proof (low_vi_recommendation_iff (np_mean vi) hs hc dets dn ct) as Hr.
  change vi_threshold with (lit 3 10) in Hi, Hr.
  split; [reflexivity|]. split; [exact Hi|]. split; [exact Hr|]. split.
  - intros E. rewrite Hi, Hr, E.
    assert (F : lt (lit 3 10) (lit 3 10) = false) by (vm_compute; reflexivity).
    rewrite F. split; discriminate.
  - intros E. rewrite Hi, Hr.
    destruct E as [E|E]; rewrite E; split; vm_compute; reflexivity.
Qed.

End FuseResultsRules.

Lemma vegetation_rule_strict_threshold_witness :
  (scalar_mean (lit 3 10) = lit 3 10
   /\ ~ In low_vi_issue
         (issues (fst (fuse_results scalar_mean FusionEngine_init tt "Unknown"
                         (S754_zero false) [] (lit 3 10) "" ""))))
  /\ (scalar_mean (lit 2999 10000) = lit 2999 10000
      /\ In low_vi_issue
            (issues (fst (fuse_results scalar_mean FusionEngine_init tt "Unknown"
                            (S754_zero false) [] (lit 2999 10000) "" "")))).
Proof.
  split; (split; [reflexivity|]).
  - destruct (vegetation_rule_strict_threshold unit float scalar_mean
                FusionEngine_init tt "Unknown" (S754_zero false) []
                (lit 3 10) "" "") as (_ & _ & _ & H & _).
    exact (proj1 (H eq_refl)).
  - destruct (vegetation_rule_strict_threshold unit float scalar_mean
                FusionEngine_init tt "Unknown" (S754_zero false) []
                (lit 2999 10000) "" "") as (_ & _ & _ & _ & H).
    exact (proj1 (H (or_introl eq_refl))).
Defined.

(** ** Counting, escalation and the health fields *)

Section FuseResultsClaims.

Variable Mask : Type.
Variable ndarray : Type.
Variable np_mean : ndarray -> float.


(** C6: when the average is below the threshold and the status is
    "Diseased", rule 4 appends the entry "CRITICAL: Multiple stress factors
    detected" and the recommendation "Immediate intervention required" after
    everything the earlier rules appended; the entries of rules 1 and 2 stay
    in place at the head of both lists. *)
Theorem compound_critical_rule
        (self : FusionEngine) (mask : Mask) (hs : string) (hc : float)
        (dets : list Detection) (vi : ndarray) (dn ct : string) (d0 : Diagnosis) :
  lt (np_mean vi) vi_threshold = true ->
  hs = "Diseased" ->
  let d := fst (fuse_results np_mean self mask hs hc dets vi dn ct) in
  issues (rule4 (np_mean vi) hs d0) = (issues d0 ++ [critical_issue])%list
  /\ recommendations (rule4 (np_mean vi) hs d0)
     = (recommendations d0 ++ [critical_recommendation])%list
  /\ issues d
     = ([low_vi_issue; disease_issue dn hc]
        ++ issues (rule3 dets (new_diagnosis ct dn))
        ++ [critical_issue])%list
  /\ recommendations d
     = ([low_vi_recommendation; disease_recommendation dn]
        ++ recommendations (rule3 dets (new_diagnosis ct dn))
        ++ [critical_recommendation])%list
  /\ str_in (lower "CRITICAL: multiple stress factors") (lower critical_issue) = true
  /\ str_in (lower "immediate intervention") (lower critical_recommendation) = true.
Proof.
  intros Hlt Hs d. subst d hs.
  rewrite rule4_issues, rule4_recommendations, fuse_results_fst, rule5_issues,
    rule5_recommendations, apply_rules_issues, apply_rules_recommendations,
    rule3_issues, rule3_recommendations, Hlt.
  cbn [String.eqb Ascii.eqb Bool.eqb andb app issues recommendations new_diagnosis].
  rewrite <- !app_assoc.
  repeat split; reflexivity.
Qed.

(** C7: the returned diagnosis carries the health status and the health
    confidence it was given.  For the statuses "Healthy" and "Unknown" rule 2
    appends no issue and no recommendation; for "Stressed" it appends the
    stress issue and the recommendation to check irrigation and nutrient
    levels. *)
Theorem health_status_rule
        (self : FusionEngine) (mask : Mask) (hs : string) (hc : float)
        (dets : list Detection) (vi : ndarray) (dn ct : string) (d0 : Diagnosis) :
  let d := fst (fuse_results np_mean self mask hs hc dets vi dn ct) in
  overall_health d = hs
  /\ confidence d = hc
  /\ overall_health (rule2 hs hc dn d0) = hs
  /\ confidence (rule2 hs hc dn d0) = hc
  /\ (hs = "Healthy" \/ hs = "Unknown" ->
      issues (rule2 hs hc dn d0) = issues d0
      /\ recommendations (rule2 hs hc dn d0) = recommendations d0)
  /\ (hs = "Stressed" ->
      issues (rule2 hs hc dn d0)
      = (issues d0 ++ [("Crop stress detected (confidence: " ++ format_pct2 hc ++ ")")%string])%list
      /\ recommendations (rule2 hs hc dn d0)
         = (recommendations d0 ++ ["Check irrigation and nutrient levels"])%list).
Proof.
  intros d. subst d. rewrite fuse_results_fst.
  destruct (rule_health (np_mean vi) hs hc dets dn ct) as (H1 & H2 & _).
  split; [exact H1|]. split; [exact H2|].
  split. { unfold rule2. destruct (String.eqb hs "Diseased");
           [|destruct (String.eqb hs "Stressed")]; reflexivity. }
  split. { unfold rule2. destruct (String.eqb hs "Diseased");
           [|destruct (String.eqb hs "Stressed")]; reflexivity. }
  rewrite rule2_issues, rule2_recommendations. split.
  - intros [E|E]; subst hs;
      cbn [String.eqb Ascii.eqb Bool.eqb]; rewrite !app_nil_r; split; reflexivity.
  - intros E; subst hs. cbn [String.eqb Ascii.eqb Bool.eqb]. split; reflexivity.
Qed.

(** C8: the diagnosis depends on the vegetation-index array only through
    its mean, and not on the segmentation mask: two calls with equal means
    and the same health values and detections return equal diagnoses,
    whatever the masks and the arrays. *)
Theorem fuse_results_depends_on_mean_only
        (self1 self2 : FusionEngine) (mask1 mask2 : Mask) (hs : string)
        (hc : float) (dets : list Detection) (vi1 vi2 : ndarray)
        (dn ct : string) :
  np_mean vi1 = np_mean vi2 ->
  fst (fuse_results np_mean self1 mask1 hs hc dets vi1 dn ct)
  = fst (fuse_results np_mean self2 mask2 hs hc dets vi2 dn ct).
Proof. intros E. rewrite !fuse_results_fst, E. reflexivity. Qed.

(** In state-passing style: the engine is the same after the call as
    before, the diagnosis does not depend on the engine, and a second call
    with the same inputs, on the engine the first call left, returns an
    equal diagnosis. *)
Lemma fuse_results_engine_unchanged
        (self other : FusionEngine) (mask : Mask) (hs : string) (hc : float)
        (dets : list Detection) (vi : ndarray) (dn ct : string) :
  let first := fuse_results np_mean self mask hs hc dets vi dn ct in
  let second := fuse_results np_mean (snd first) mask hs hc dets vi dn ct in
  snd first = self
  /\ snd second = self
  /\ fst second = fst first
  /\ fst (fuse_results np_mean other mask hs hc dets vi dn ct) = fst first
  /\ fst first
     = rule5 (rule4 (np_mean vi) hs
                (rule3 dets
                   (rule2 hs hc dn (rule1 (np_mean vi) (new_diagnosis ct dn))))).
Proof. repeat split. Qed.

End FuseResultsClaims.


Lemma compound_critical_rule_witness :
  lt (scalar_mean (lit 1 10)) vi_threshold = true
  /\ issues (fst (fuse_results scalar_mean FusionEngine_init tt "Diseased"
                    (lit 9 10) [] (lit 1 10) "Leaf Blight" "Tomato"))
     = ([low_vi_issue; disease_issue "Leaf Blight" (lit 9 10)]
        ++ issues (rule3 [] (new_diagnosis "Tomato" "Leaf Blight"))
        ++ [critical_issue])%list.
Proof.
  assert (H : lt (scalar_mean (lit 1 10)) vi_threshold = true)
    by (vm_compute; reflexivity).
  split; [exact H|].
  destruct (compound_critical_rule unit float scalar_mean FusionEngine_init tt
              "Diseased" (lit 9 10) [] (lit 1 10) "Leaf Blight" "Tomato"
              (new_diagnosis "Tomato" "Leaf Blight") H eq_refl)
    as (_ & _ & E & _).
  exact E.
Defined.

Lemma health_status_rule_witness :
  issues (rule2 "Healthy" (lit 99 100) "healthy" (new_diagnosis "Corn" "healthy"))
  = issues (new_diagnosis "Corn" "healthy")
  /\ recommendations (rule2 "Stressed" (lit 1 3) "" (new_diagnosis "" ""))
     = (recommendations (new_diagnosis "" "")
        ++ ["Check irrigation and nutrient levels"])%list.
Proof.
  split.
  - destruct (health_status_rule unit float scalar_mean FusionEngine_init tt
                "Healthy" (lit 99 100) [] (lit 8 10) "healthy" "Corn"
                (new_diagnosis "Corn" "healthy")) as (_ & _ & _ & _ & H & _).
    exact (proj1 (H (or_introl eq_refl))).
  - destruct (health_status_rule unit float scalar_mean FusionEngine_init tt
                "Stressed" (lit 1 3) [] (lit 8 10) "" ""
                (new_diagnosis "" "")) as (_ & _ & _ & _ & _ & H).
    exact (proj2 (H eq_refl)).
Defined.

(** Two index arrays of different sizes with the same mean, under the mean
    of a float64 array, and two different masks. *)
Lemma fuse_results_depends_on_mean_only_witness :
  list_mean [lit 1 10; lit 3 10] = list_mean [lit 2 10]
  /\ fst (fuse_results list_mean FusionEngine_init true "Diseased"
            (lit 9 10) [] [lit 1 10; lit 3 10] "Leaf Blight" "Tomato")
     = fst (fuse_results list_mean FusionEngine_init false "Diseased"
              (lit 9 10) [] [lit 2 10] "Leaf Blight" "Tomato").
Proof.
  assert (E : list_mean [lit 1 10; lit 3 10] = list_mean [lit 2 10])
    by (vm_compute; reflexivity).
  split; [exact E|].
  exact (fuse_results_depends_on_mean_only bool (list float) list_mean
           FusionEngine_init FusionEngine_init true false "Diseased"
           (lit 9 10) [] [lit 1 10; lit 3 10] [lit 2 10] "Leaf Blight"
           "Tomato" E).
Defined.

(** ** The detector degrades to an empty list *)

Module DetectorFacts.
Import Detector.

Lemma categorize_cases (l c : string) :
  _categorize_detection l = Some c -> c = "weed" \/ c = "pest".
Proof.
  unfold _categorize_detection.
  destruct (any_in weed_keywords (lower l));
    [|destruct (any_in pest_keywords (lower l))]; intros H;
    [left | right | discriminate]; congruence.
Qed.

Lemma for_each_invariant {A S : Type} (P : S -> Prop)
      (body : S -> A -> result S) (xs : list A) :
  (forall s x s', P s -> body s x = Ok s' -> P s') ->
  forall s s', P s -> for_each body xs s = Ok s' -> P s'.
Proof.
  intros Hb. induction xs as [|x xs IH]; intros s s' Hs; cbn [for_each].
  - intros E. injection E as <-. exact Hs.
  - destruct (body s x) as [s1|e] eqn:E1; cbn [bind]; [|discriminate].
    apply IH. exact (Hb s x s1 Hs E1).
Qed.

Lemma detect_box_invariant (r : YoloResult) (dets : list Detection) (box : Box)
      (dets' : list Detection) :
  Forall weed_or_pest dets ->
  detect_box r dets box = Ok dets' ->
  Forall weed_or_pest dets'.
Proof.
  intros Hd. unfold detect_box.
  destruct (xyxy box) as [[[x1 y1] x2] y2].
  destruct (int_of_float (cls box)) as [k|e]; cbn [bind]; [|discriminate].
  destruct (names_get r k) as [l|e]; cbn [bind]; [|discriminate].
  destruct (_categorize_detection l) as [c|] eqn:Ec.
  - destruct (truthy c).
    + destruct (int_of_float x1); cbn [bind]; [|discriminate].
      destruct (int_of_float y1); cbn [bind]; [|discriminate].
      destruct (int_of_float x2); cbn [bind]; [|discriminate].
      destruct (int_of_float y2); cbn [bind]; [|discriminate].
      intros E. injection E as <-.
      apply Forall_app. split; [exact Hd|].
      constructor; [|constructor].
      exact (categorize_cases l c Ec).
    + intros E. injection E as <-. exact Hd.
  - intros E. injection E as <-. exact Hd.
Qed.

Lemma detect_try_categories {Image : Type} (self : WeedPestDetector Image)
      (image : Image) (dets : list Detection) :
  detect_try self image = Ok dets -> Forall weed_or_pest dets.
Proof.
  unfold detect_try.
  destruct (model self image) as [results|e]; cbn [bind]; [|discriminate].
  apply (for_each_invariant (Forall weed_or_pest)); [|constructor].
  intros s r s' Hs. unfold detect_result.
  apply (for_each_invariant (Forall weed_or_pest)); [|exact Hs].
  intros s0 b s1. apply detect_box_invariant.
Qed.

End DetectorFacts.

Import Detector DetectorFacts.

(** C10: [detect] always returns a pair of a detection list and a status
    and lets no exception out of its [try] block.  Without the model it
    returns the empty list with "YOLOv8 not available"; when the model call
    or anything after it in the block raises, it returns the empty list with
    "Detection failed: " and the message; otherwise it returns the detections
    with "Success".  Every detection returned has category "weed" or "pest":
    a label whose lowercased text contains no weed keyword and no pest
    keyword is categorised [None] and its box is dropped, a label containing
    a weed keyword is "weed" even when it also contains a pest keyword, and
    a label containing only a pest keyword is "pest". *)
Theorem detect_degrades_to_defaults
        (Image : Type) (self : WeedPestDetector Image) (image : Image) :
  (exists dets status,
      detect self image = (dets, status)
      /\ Forall (fun x => category x = "weed" \/ category x = "pest") dets
      /\ (status = "Success" \/ dets = []))
  /\ (available self = false ->
      detect self image = ([], "YOLOv8 not available"))
  /\ (available self = true -> forall e, model self image = Raise e ->
      detect self image = ([], "Detection failed: " ++ e))
  /\ (available self = true -> forall e, detect_try self image = Raise e ->
      detect self image = ([], "Detection failed: " ++ e))
  /\ (available self = true -> forall dets, detect_try self image = Ok dets ->
      detect self image = (dets, "Success"))
  /\ weed_keywords = ["plant"; "potted plant"]
  /\ pest_keywords = ["bird"; "insect"; "bee"]
  /\ (forall l, any_in weed_keywords (lower l) = false ->
                any_in pest_keywords (lower l) = false ->
                _categorize_detection l = None
                /\ forall r dets box k,
                    int_of_float (cls box) = Ok k -> names r k = Some l ->
                    detect_box r dets box = Ok dets)
  /\ (forall l, any_in weed_keywords (lower l) = true ->
                _categorize_detection l = Some "weed")
  /\ (forall l, any_in weed_keywords (lower l) = false ->
                any_in pest_keywords (lower l) = true ->
                _categorize_detection l = Some "pest").
Proof.
  split.
  { unfold detect. destruct (available self); cbn [negb].
    - destruct (detect_try self image) as [dets|e] eqn:E.
      + exists dets, "Success". split; [reflexivity|]. split; [|now left].
        exact (detect_try_categories self image dets E).
      + exists [], ("Detection failed: " ++ e). split; [reflexivity|].
        split; [constructor | now right].
    - exists [], "YOLOv8 not available". split; [reflexivity|].
      split; [constructor | now right]. }
  split. { intros Ha. unfold detect. now rewrite Ha. }
  split. { intros Ha e E. unfold detect, detect_try. now rewrite Ha, E. }
  split. { intros Ha e E. unfold detect. now rewrite Ha, E. }
  split. { intros Ha dets E. unfold detect. now rewrite Ha, E. }
  split; [reflexivity|]. split; [reflexivity|].
  split.
  { intros l Hw Hp.
    assert (Hc : _categorize_detection l = None)
      by (unfold _categorize_detection; now rewrite Hw, Hp).
    split; [exact Hc|].
    intros r dets box k Hk Hn. unfold detect_box, names_get.
    destruct (xyxy box) as [[[x1 y1] x2] y2].
    rewrite Hk. cbn [bind]. rewrite Hn. cbn [bind]. now rewrite Hc. }
  split.
  { intros l Hw. unfold _categorize_detection. now rewrite Hw. }
  intros l Hw Hp. unfold _categorize_detection. now rewrite Hw, Hp.
Qed.

Lemma detect_degrades_to_defaults_witness :
  (available failing_detector = true
   /\ model failing_detector tt = Raise "CUDA out of memory"
   /\ detect failing_detector tt = ([], "Detection failed: CUDA out of memory"))
  /\ (available missing_detector = false
      /\ detect missing_detector tt = ([], "YOLOv8 not available"))
  /\ (any_in weed_keywords (lower "Bird Plant") = true
      /\ _categorize_detection "Bird Plant" = Some "weed")
  /\ (any_in weed_keywords (lower "person") = false
      /\ any_in pest_keywords (lower "person") = false
      /\ _categorize_detection "person" = None).
Proof.
  split; [|split; [|split]].
  - split; [reflexivity|]. split; [reflexivity|].
    destruct (detect_degrades_to_defaults unit failing_detector tt)
      as (_ & _ & H & _).
    exact (H eq_refl "CUDA out of memory" eq_refl).
  - split; [reflexivity|].
    destruct (detect_degrades_to_defaults unit missing_detector tt)
      as (_ & H & _).
    exact (H eq_refl).
  - split; [reflexivity|].
    destruct (detect_degrades_to_defaults unit missing_detector tt)
      as (_ & _ & _ & _ & _ & _ & _ & _ & H & _).
    exact (H "Bird Plant" eq_refl).
  - split; [reflexivity|]. split; [reflexivity|].
    destruct (detect_degrades_to_defaults unit missing_detector tt)
      as (_ & _ & _ & _ & _ & _ & _ & H & _).
    exact (proj1 (H "person" eq_refl eq_refl)).
Defined.

Example detect_sample :
  detect sample_detector tt
  = ([ {| bbox := [10; 40; 199; 300]; det_confidence := lit 3 4;
          label := "potted plant"; category := "weed" |};
       {| bbox := [10; 40; 199; 300]; det_confidence := lit 3 4;
          label := "bird"; category := "pest" |} ],
     "Success").
Proof. vm_compute. reflexivity. Qed.

(** * Further properties of the code *)

(** ** Substrings, splitting and replacing *)

Module StrFacts.
Import Classifier.

Lemma prefix_iff (p s : string) :
  String.prefix p s = true <-> exists r, s = p ++ r.
Proof.
  revert s. induction p as [|a p IH]; intros s.
  - split; [intros _; now exists s | intros _; now destruct s].
  - destruct s as [|b s]; cbn [String.prefix append].
    + split; [discriminate | intros [r H]; discriminate H].
    + destruct (ascii_dec a b) as [->|n].
      * rewrite IH. split; intros [r H]; exists r; congruence.
      * split; [discriminate | intros [r H]; congruence].
Qed.

Lemma strip_prefix_iff (p s r : string) :
  strip_prefix p s = Some r <-> s = p ++ r.
Proof.
  revert s. induction p as [|a p IH]; intros s; cbn [strip_prefix append].
  - split; congruence.
  - destruct s as [|b s]; [split; discriminate|].
    destruct (Ascii.eqb a b) eqn:E.
    + apply Ascii.eqb_eq in E. subst b. rewrite IH. split; congruence.
    + apply Ascii.eqb_neq in E. split; [discriminate | congruence].
Qed.

Lemma strip_prefix_prefix (p s : string) :
  strip_prefix p s = None <-> String.prefix p s = false.
Proof.
  destruct (strip_prefix p s) as [r|] eqn:E.
  - apply strip_prefix_iff in E.
    assert (H : String.prefix p s = true) by (apply prefix_iff; now exists r).
    rewrite H. split; discriminate.
  - split; [|reflexivity]. intros _.
    destruct (String.prefix p s) eqn:H; [|reflexivity].
    apply prefix_iff in H. destruct H as [r H].
    apply strip_prefix_iff in H. congruence.
Qed.

Lemma append_assoc (a b c : string) : (a ++ b) ++ c = a ++ b ++ c.
Proof. induction a as [|x a IH]; cbn [append]; [reflexivity | now rewrite IH]. Qed.

(** [sub in s] holds exactly when [s] is some text, [sub], and some text. *)
Lemma str_in_iff (sub s : string) :
  str_in sub s = true <-> exists a b, s = a ++ sub ++ b.
Proof.
  induction s as [|c s IH]; cbn [str_in].
  - destruct (String.prefix sub "") eqn:E.
    + split; [|reflexivity]. intros _. apply prefix_iff in E.
      destruct E as [r E]. now exists "", r.
    + split; [discriminate|]. intros ([|x a] & b & H).
      * assert (P : String.prefix sub "" = true)
          by (apply prefix_iff; now exists b).
        congruence.
      * discriminate H.
  - destruct (String.prefix sub (String c s)) eqn:E.
    + split; [|reflexivity]. intros _. apply prefix_iff in E.
      destruct E as [r E]. now exists "", r.
    + rewrite IH. split.
      * intros (a & b & H). exists (String c a), b. cbn [append]. congruence.
      * intros ([|x a] & b & H).
        -- assert (P : String.prefix sub (String c s) = true)
             by (apply prefix_iff; now exists b).
           congruence.
        -- cbn [append] in H. exists a, b. congruence.
Qed.

Lemma str_in_suffix (a b s : string) :
  str_in (a ++ b) s = true -> str_in b s = true.
Proof.
  rewrite !str_in_iff. intros (x & y & H). exists (x ++ a), y.
  now rewrite H, !append_assoc.
Qed.

Lemma lower_ascii_idem (c : ascii) : lower_ascii (lower_ascii c) = lower_ascii c.
Proof.
  destruct c as [[] [] [] [] [] [] [] []]; vm_compute; reflexivity.
Qed.

Lemma lower_idem (s : string) : lower (lower s) = lower s.
Proof.
  induction s as [|c s IH]; cbn [lower]; [reflexivity|].
  now rewrite lower_ascii_idem, IH.
Qed.

Lemma replace_length (old new : ascii) (s : string) :
  String.length (replace old new s) = String.length s.
Proof. induction s as [|c s IH]; cbn [replace String.length]; congruence. Qed.

Lemma replace_get (old new : ascii) (s : string) (n : nat) :
  old <> new -> String.get n (replace old new s) <> Some old.
Proof.
  intros Hd. revert n. induction s as [|c s IH]; intros n; cbn [replace].
  - destruct n; discriminate.
  - destruct n as [|n]; cbn [String.get]; [|apply IH].
    destruct (Ascii.eqb c old) eqn:E; intros H; injection H as H.
    + congruence.
    + apply Ascii.eqb_neq in E. congruence.
Qed.

Lemma str_in_char_get (c : ascii) (s : string) :
  str_in (String c "") s = true -> exists n, String.get n s = Some c.
Proof.
  rewrite str_in_iff. intros (a & b & H). subst s.
  exists (String.length a). induction a as [|x a IH]; cbn; [reflexivity | exact IH].
Qed.

Lemma replace_absent (old new : ascii) (s : string) :
  old <> new -> str_in (String old "") (replace old new s) = false.
Proof.
  intros Hd. destruct (str_in (String old "") (replace old new s)) eqn:E;
    [|reflexivity].
  apply str_in_char_get in E. destruct E as [n E].
  now apply replace_get in E.
Qed.

(** [split1] on a text with the separator: the two parts, which put back
    around the separator give the text, the first one free of it. *)
Lemma split1_found (sep s : string) :
  sep <> "" -> str_in sep s = true ->
  exists a b, split1 sep s = [a; b] /\ s = a ++ sep ++ b
              /\ str_in sep a = false.
Proof.
  intros Hne. induction s as [|c s IH]; cbn [str_in split1].
  - destruct (String.prefix sep "") eqn:E; [|discriminate]. intros _.
    apply prefix_iff in E. destruct E as [r E].
    destruct sep; [congruence | discriminate E].
  - destruct (strip_prefix sep (String c s)) as [rest|] eqn:S.
    + intros _. exists "", rest. split; [reflexivity|].
      split; [now apply strip_prefix_iff in S|].
      destruct sep; [congruence | reflexivity].
    + apply strip_prefix_prefix in S. rewrite S. intros H.
      destruct (IH H) as (a & b & E1 & E2 & E3). rewrite E1.
      exists (String c a), b. split; [reflexivity|].
      split; [cbn [append]; congruence|].
      cbn [str_in]. rewrite E3.
      destruct (String.prefix sep (String c a)) eqn:P; [|reflexivity].
      apply prefix_iff in P. destruct P as [r P].
      assert (Q : String.prefix sep (String c s) = true).
      { apply prefix_iff. exists (r ++ sep ++ b).
        rewrite E2. change (String c (a ++ sep ++ b)) with (String c a ++ sep ++ b).
        now rewrite P, append_assoc. }
      congruence.
Qed.

Lemma split1_absent (sep s : string) :
  str_in sep s = false -> split1 sep s = [s].
Proof.
  induction s as [|c s IH]; cbn [str_in split1].
  - destruct (String.prefix sep "") eqn:E; [discriminate|]. intros _.
    apply strip_prefix_prefix in E. now rewrite E.
  - destruct (String.prefix sep (String c s)) eqn:E; [discriminate|]. intros H.
    apply strip_prefix_prefix in E. rewrite E, (IH H). reflexivity.
Qed.

End StrFacts.

(** ** The health classifier's label parsing *)

Import Classifier StrFacts.

Lemma health_of_label_cases (full : string) (c : float) :
  exists ct dn,
    health_of_label full c
    = Ok (if str_in "healthy" (lower dn) then "Healthy" else "Diseased",
          c, dn, ct)
    /\ ((str_in "___" full = true
         /\ exists a b, full = a ++ "___" ++ b /\ str_in "___" a = false
                        /\ ct = replace "_" " " a /\ dn = replace "_" " " b)
        \/ (str_in "___" full = false
            /\ ct = "Unknown" /\ dn = replace "_" " " full)).
Proof.
  unfold health_of_label. destruct (str_in "___" full) eqn:E.
  - destruct (split1_found "___" full) as (a & b & S & F & N);
      [discriminate | exact E |].
    rewrite S. cbn [bind].
    exists (replace "_" " " a), (replace "_" " " b).
    split; [reflexivity|]. left. split; [reflexivity|].
    exists a, b. repeat split; assumption.
  - cbn [bind]. exists "Unknown", (replace "_" " " full).
    split; [reflexivity|]. right. repeat split.
Qed.

(** X1: the label parsing of [classify_health] never raises (a label that
    contains the separator always splits in two parts), it hands the
    probability on unchanged, and the status it returns is "Healthy" when
    the lowercased disease name contains "healthy" and "Diseased" otherwise:
    never "Stressed" nor "Unknown". *)
Theorem health_of_label_status (full : string) (c : float) :
  exists status dn ct,
    health_of_label full c = Ok (status, c, dn, ct)
    /\ (status = "Healthy" \/ status = "Diseased")
    /\ (status = "Healthy" <-> str_in "healthy" (lower dn) = true)
    /\ status <> "Stressed" /\ status <> "Unknown".
Proof.
  destruct (health_of_label_cases full c) as (ct & dn & E & _).
  exists (if str_in "healthy" (lower dn) then "Healthy" else "Diseased"), dn, ct.
  split; [exact E|].
  destruct (str_in "healthy" (lower dn)).
  - repeat split; try discriminate; auto.
  - repeat split; try discriminate; auto.
Qed.

Lemma health_of_label_no_underscore_aux (full : string) (c : float)
      (status dn ct : string) (c' : float) :
  health_of_label full c = Ok (status, c', dn, ct) ->
  str_in "_" dn = false /\ str_in "_" ct = false.
Proof.
  destruct (health_of_label_cases full c) as (ct0 & dn0 & E & H).
  rewrite E. intros I. injection I as _ _ <- <-.
  destruct H as [(_ & a & b & _ & _ & -> & ->) | (_ & -> & ->)];
    split; try (apply replace_absent; discriminate); reflexivity.
Qed.

(** X2: the crop type and the disease name that the parsing returns contain
    no underscore. *)
Theorem health_of_label_no_underscore (full : string) (c : float)
        (status dn ct : string) (c' : float) :
  health_of_label full c = Ok (status, c', dn, ct) ->
  str_in "_" dn = false /\ str_in "_" ct = false.
Proof.
  destruct (health_of_label_cases full c) as (ct0 & dn0 & E & H).
  rewrite E. intros I. injection I as _ _ <- <-.
  destruct H as [(_ & a & b & _ & _ & -> & ->) | (_ & -> & ->)];
    split; try (apply replace_absent; discriminate); reflexivity.
Qed.

Lemma split1_minimal (sep s : string) :
  forall a b a' b',
    split1 sep s = [a; b] -> s = a' ++ sep ++ b' ->
    (String.length a <= String.length a')%nat.
Proof.
  induction s as [|c s IH]; intros a b a' b'; cbn [split1].
  - destruct (strip_prefix sep "") as [rest|]; intros H; [|discriminate H].
    injection H as <- _. cbn. lia.
  - destruct (strip_prefix sep (String c s)) as [rest|] eqn:S.
    + intros H. injection H as <- _. cbn. lia.
    + destruct (split1 sep s) as [|a0 tl] eqn:R; intros H; [discriminate H|].
      injection H as <- ->. intros F. destruct a' as [|c' a''].
      * cbn [append] in F. apply strip_prefix_iff in F. congruence.
      * cbn [append] in F. injection F as _ F.
        cbn [String.length]. apply le_n_S. exact (IH a0 b a'' b' eq_refl F).
Qed.

(** X3: a label with the separator "___" is cut at its first occurrence:
    the crop type is the text before it and the disease name the text after
    it, underscores replaced by spaces.  No other way of writing the label
    around "___" has a shorter text before it, so the text before does not
    contain the separator; the two lengths and the three characters of the
    separator add up to the length of the label. *)
Theorem health_of_label_split (full : string) (c : float) :
  str_in "___" full = true ->
  exists a b,
    full = a ++ "___" ++ b
    /\ (forall a' b', full = a' ++ "___" ++ b' ->
                      (String.length a <= String.length a')%nat)
    /\ str_in "___" a = false
    /\ health_of_label full c
       = Ok (if str_in "healthy" (lower (replace "_" " " b))
             then "Healthy" else "Diseased",
             c, replace "_" " " b, replace "_" " " a)
    /\ (String.length (replace "_" " " a) + 3
        + String.length (replace "_" " " b) = String.length full)%nat.
Proof.
  intros Hsep.
  destruct (split1_found "___" full) as (a & b & S & F & N);
    [discriminate | exact Hsep |].
  exists a, b. split; [exact F|].
  split; [intros a' b' F'; exact (split1_minimal "___" full a b a' b' S F')|].
  split; [exact N|]. split.
  - unfold health_of_label. rewrite Hsep, S. reflexivity.
  - rewrite !replace_length, F.
    clear. induction a as [|x a IH]; cbn [append String.length].
    + lia.
    + cbn [append String.length] in IH. lia.
Qed.

(** Likewise, a label without the separator "___" gives the crop type "Unknown"
    and the whole label, underscores replaced by spaces, as disease name. *)
Theorem health_of_label_unknown_crop (full : string) (c : float) :
  str_in "___" full = false ->
  health_of_label full c
  = Ok (if str_in "healthy" (lower (replace "_" " " full))
        then "Healthy" else "Diseased",
        c, replace "_" " " full, "Unknown").
Proof.
  intros Hsep.
  destruct (health_of_label_cases full c) as (ct & dn & E & H).
  destruct H as [(Hy & _) | (_ & -> & ->)]; [congruence | exact E].
Qed.

Lemma health_of_label_no_underscore_witness :
  health_of_label "Corn_(maize)___Common_rust_" (lit 9 10)
  = Ok ("Diseased", lit 9 10, "Common rust ", "Corn (maize)")
  /\ str_in "_" "Common rust " = false /\ str_in "_" "Corn (maize)" = false.
Proof.
  assert (E : health_of_label "Corn_(maize)___Common_rust_" (lit 9 10)
              = Ok ("Diseased", lit 9 10, "Common rust ", "Corn (maize)"))
    by reflexivity.
  split; [exact E|].
  exact (health_of_label_no_underscore _ _ _ _ _ _ E).
Defined.

Lemma health_of_label_split_witness :
  str_in "___" "a____b" = true
  /\ exists a b, "a____b" = a ++ "___" ++ b
                 /\ (String.length a <= String.length "a")%nat.
Proof.
  split; [reflexivity|].
  destruct (health_of_label_split "a____b" (lit 9 10) eq_refl)
    as (a & b & F & Min & _).
  exists a, b. split; [exact F | exact (Min "a" "_b" eq_refl)].
Defined.

Lemma health_of_label_unknown_crop_witness :
  str_in "___" "Apple_scab" = false
  /\ health_of_label "Apple_scab" (lit 9 10)
     = Ok ("Diseased", lit 9 10, "Apple scab", "Unknown").
Proof.
  split; [reflexivity|].
  exact (health_of_label_unknown_crop "Apple_scab" (lit 9 10) eq_refl).
Defined.

(** ** The fusion engine: shape of the diagnosis *)

Lemma weed_issue_not_critical (n : Z) : weed_issue n <> critical_issue.
Proof.
  unfold weed_issue, str_of_int, critical_issue.
  destruct (Z.to_int n) as [u|u]; [destruct u|]; cbn; discriminate.
Qed.

Lemma pest_issue_not_critical (n : Z) : pest_issue n <> critical_issue.
Proof.
  unfold pest_issue, str_of_int, critical_issue.
  destruct (Z.to_int n) as [u|u]; [destruct u|]; cbn; discriminate.
Qed.

Lemma disease_issue_not_critical (dn : string) (hc : float) :
  disease_issue dn hc <> critical_issue.
Proof. unfold disease_issue, critical_issue. cbn [append]. discriminate. Qed.

Lemma stress_issue_not_critical (hc : float) : stress_issue hc <> critical_issue.
Proof. unfold stress_issue, critical_issue. cbn [append]. discriminate. Qed.

Lemma disease_recommendation_not_default (dn : string) :
  disease_recommendation dn <> default_recommendation.
Proof.
  unfold disease_recommendation, default_recommendation. cbn [append].
  discriminate.
Qed.

Ltac split_rules avg hs dets :=
  destruct (lt avg vi_threshold);
  destruct (String.eqb hs "Diseased");
  destruct (String.eqb hs "Stressed");
  destruct (0 <? count_category "weed" dets);
  destruct (0 <? count_category "pest" dets).

Lemma default_recommendation_iff (avg : float) (hs : string) (hc : float)
      (dets : list Detection) (dn ct : string) :
  In default_recommendation
     (recommendations (rule5 (apply_rules avg hs hc dets dn ct)))
  <-> issues (rule5 (apply_rules avg hs hc dets dn ct)) = [].
Proof.
  rewrite rule5_recommendations, rule5_issues, apply_rules_issues,
    apply_rules_recommendations.
  split_rules avg hs dets; cbn [andb app In];
    (split; [intros H | intros H; try discriminate H; now left]);
    try reflexivity;
    repeat match type of H with _ \/ _ => destruct H as [H|H] end;
    try contradiction;
    try (now apply disease_recommendation_not_default in H);
    discriminate H.
Qed.

Lemma critical_issue_iff (avg : float) (hs : string) (hc : float)
      (dets : list Detection) (dn ct : string) :
  In critical_issue (issues (rule5 (apply_rules avg hs hc dets dn ct)))
  <-> (lt avg vi_threshold = true /\ hs = "Diseased").
Proof.
  rewrite rule5_issues, apply_rules_issues, <- String.eqb_eq.
  split_rules avg hs dets; cbn [andb app In];
    (split; [intros H | intros [H1 H2]; try discriminate; auto 10]);
    try (split; reflexivity);
    repeat match type of H with _ \/ _ => destruct H as [H|H] end;
    try contradiction;
    try (now apply disease_issue_not_critical in H);
    try (now apply stress_issue_not_critical in H);
    try (now apply weed_issue_not_critical in H);
    try (now apply pest_issue_not_critical in H);
    discriminate H.
Qed.

Lemma rule3_counts (d1 d2 : list Detection) (d : Diagnosis) :
  count_category "weed" d1 = count_category "weed" d2 ->
  count_category "pest" d1 = count_category "pest" d2 ->
  rule3 d1 d = rule3 d2 d.
Proof. intros Hw Hp. unfold rule3. now rewrite Hw, Hp. Qed.

Lemma apply_rules_counts (avg : float) (hs : string) (hc : float)
      (d1 d2 : list Detection) (dn ct : string) :
  count_category "weed" d1 = count_category "weed" d2 ->
  count_category "pest" d1 = count_category "pest" d2 ->
  apply_rules avg hs hc d1 dn ct = apply_rules avg hs hc d2 dn ct.
Proof.
  intros Hw Hp. unfold apply_rules. now rewrite (rule3_counts d1 d2 _ Hw Hp).
Qed.

Lemma apply_rules_comparison (a1 a2 : float) (hs : string) (hc : float)
      (dets : list Detection) (dn ct : string) :
  lt a1 vi_threshold = lt a2 vi_threshold ->
  apply_rules a1 hs hc dets dn ct = apply_rules a2 hs hc dets dn ct.
Proof. intros H. unfold apply_rules, rule4, rule1. now rewrite H. Qed.

Lemma count_category_filter (c : string) (keep : Detection -> bool)
      (dets : list Detection) :
  (forall x, String.eqb (category x) c = true -> keep x = true) ->
  count_category c (filter keep dets) = count_category c dets.
Proof.
  intros H. rewrite !count_category_length. f_equal. f_equal.
  induction dets as [|x l IH]; cbn [filter]; [reflexivity|].
  destruct (keep x) eqn:K; cbn [filter].
  - now rewrite IH.
  - destruct (String.eqb (category x) c) eqn:E; [|exact IH].
    rewrite (H x E) in K. discriminate K.
Qed.

Lemma count_category_map (c : string) (d1 d2 : list Detection) :
  map category d1 = map category d2 ->
  count_category c d1 = count_category c d2.
Proof.
  intros H. rewrite !count_category_length. f_equal.
  revert d2 H. induction d1 as [|x l IH]; intros [|y l'] H;
    try discriminate H; [reflexivity|].
  cbn [map] in H. injection H as Hx Hl. cbn [filter]. rewrite Hx.
  destruct (String.eqb (category y) c); cbn [List.length];
    now rewrite (IH l' Hl).
Qed.

Lemma count_category_perm (c : string) (d1 d2 : list Detection) :
  Permutation d1 d2 -> count_category c d1 = count_category c d2.
Proof.
  intros H. rewrite !count_category_length. f_equal.
  induction H as [|x l l' _ IH|x y l|l l' l'' _ IH1 _ IH2]; cbn [filter].
  - reflexivity.
  - destruct (String.eqb (category x) c); cbn [List.length]; now rewrite IH.
  - destruct (String.eqb (category x) c); destruct (String.eqb (category y) c);
      reflexivity.
  - now rewrite IH1.
Qed.

Section FuseResultsShape.

Variable Mask : Type.
Variable ndarray : Type.
Variable np_mean : ndarray -> float.

(** X4: every rule that fires appends one issue and one recommendation, so
    the diagnosis has at most five issues and between one and five
    recommendations, as many recommendations as issues, or the single default
    one when there is no issue. *)
Theorem fuse_results_lengths
        (self : FusionEngine) (mask : Mask) (hs : string) (hc : float)
        (dets : list Detection) (vi : ndarray) (dn ct : string) :
  let d := fst (fuse_results np_mean self mask hs hc dets vi dn ct) in
  (List.length (issues d) <= 5)%nat
  /\ (1 <= List.length (recommendations d) <= 5)%nat
  /\ List.length (recommendations d) = Nat.max 1 (List.length (issues d)).
Proof.
  intros d. subst d.
  rewrite fuse_results_fst, rule5_recommendations, rule5_issues,
    apply_rules_issues, apply_rules_recommendations.
  split_rules (np_mean vi) hs dets; cbn [andb app List.length Nat.max];
    repeat split; lia.
Qed.

(** X5: the default recommendation "Continue regular monitoring" is in the
    diagnosis exactly when the diagnosis has no issue; it is then the only
    recommendation. *)
Theorem default_recommendation_when_no_issue
        (self : FusionEngine) (mask : Mask) (hs : string) (hc : float)
        (dets : list Detection) (vi : ndarray) (dn ct : string) :
  let d := fst (fuse_results np_mean self mask hs hc dets vi dn ct) in
  (In "Continue regular monitoring" (recommendations d) <-> issues d = [])
  /\ (issues d = [] -> recommendations d = ["Continue regular monitoring"]).
Proof.
  intros d. subst d. rewrite fuse_results_fst.
  split; [apply default_recommendation_iff|].
  rewrite rule5_recommendations, rule5_issues, apply_rules_issues,
    apply_rules_recommendations.
  split_rules (np_mean vi) hs dets; cbn [andb app]; intros H;
    try discriminate H; reflexivity.
Qed.

(** X6: the issue "CRITICAL: Multiple stress factors detected" is in the
    diagnosis exactly when the average index is below the threshold and the
    status is "Diseased"; a "Stressed" crop with a low index never gets
    it. *)
Theorem critical_issue_exactly
        (self : FusionEngine) (mask : Mask) (hs : string) (hc : float)
        (dets : list Detection) (vi : ndarray) (dn ct : string) :
  let d := fst (fuse_results np_mean self mask hs hc dets vi dn ct) in
  (In "CRITICAL: Multiple stress factors detected" (issues d)
   <-> (lt (np_mean vi) (lit 3 10) = true /\ hs = "Diseased"))
  /\ (hs = "Stressed" ->
      ~ In "CRITICAL: Multiple stress factors detected" (issues d)).
Proof.
  intros d. subst d. rewrite fuse_results_fst.
  pose proof (critical_issue_iff (np_mean vi) hs hc dets dn ct) as H.
  split; [exact H|].
  intros E I. apply H in I. destruct I as [_ I]. subst hs. discriminate I.
Qed.

(** X7: the diagnosis depends on the average index only through the
    comparison with the threshold: two averages on the same side of it give
    equal diagnoses. *)
Theorem fuse_results_depends_on_comparison_only
        (self : FusionEngine) (mask : Mask) (hs : string) (hc : float)
        (dets : list Detection) (vi1 vi2 : ndarray) (dn ct : string) :
  lt (np_mean vi1) vi_threshold = lt (np_mean vi2) vi_threshold ->
  fst (fuse_results np_mean self mask hs hc dets vi1 dn ct)
  = fst (fuse_results np_mean self mask hs hc dets vi2 dn ct).
Proof.
  intros H. rewrite !fuse_results_fst.
  now rewrite (apply_rules_comparison _ _ hs hc dets dn ct H).
Qed.

(** X8: an average that is NaN, as the mean of an empty index array is,
    counts as not below the threshold: the diagnosis has neither the
    low-vegetation-index issue nor the CRITICAL issue, whatever the
    status. *)
Theorem nan_average_is_not_low
        (self : FusionEngine) (mask : Mask) (hs : string) (hc : float)
        (dets : list Detection) (vi : ndarray) (dn ct : string) :
  np_mean vi = S754_nan ->
  let d := fst (fuse_results np_mean self mask hs hc dets vi dn ct) in
  ~ In low_vi_issue (issues d)
  /\ ~ In low_vi_recommendation (recommendations d)
  /\ ~ In critical_issue (issues d)
  /\ ~ In critical_recommendation (recommendations d).
Proof.
  intros E d. subst d. rewrite fuse_results_fst.
  rewrite low_vi_issue_iff, low_vi_recommendation_iff, critical_issue_iff, E.
  assert (F : lt S754_nan vi_threshold = false) by reflexivity.
  rewrite F. repeat split; try discriminate; try (intros [H _]; discriminate H).
  rewrite rule5_recommendations, apply_rules_recommendations, F.
  destruct (String.eqb hs "Diseased"); destruct (String.eqb hs "Stressed");
    destruct (0 <? count_category "weed" dets);
    destruct (0 <? count_category "pest" dets); cbn [andb app In]; intros H;
    repeat match type of H with _ \/ _ => destruct H as [H|H] end;
    try contradiction;
    try (unfold disease_recommendation, critical_recommendation in H;
         cbn [append] in H);
    discriminate H.
Qed.

(** X9: the diagnosis depends on the detections only through the number
    of weeds and the number of pests: the order of the detections does not
    matter, nor do their boxes, confidences and labels. *)
Theorem fuse_results_detections_as_counts
        (self : FusionEngine) (mask : Mask) (hs : string) (hc : float)
        (d1 d2 : list Detection) (vi : ndarray) (dn ct : string) :
  (count_category "weed" d1 = count_category "weed" d2 ->
   count_category "pest" d1 = count_category "pest" d2 ->
   fst (fuse_results np_mean self mask hs hc d1 vi dn ct)
   = fst (fuse_results np_mean self mask hs hc d2 vi dn ct))
  /\ (Permutation d1 d2 ->
      fst (fuse_results np_mean self mask hs hc d1 vi dn ct)
      = fst (fuse_results np_mean self mask hs hc d2 vi dn ct))
  /\ (map category d1 = map category d2 ->
      fst (fuse_results np_mean self mask hs hc d1 vi dn ct)
      = fst (fuse_results np_mean self mask hs hc d2 vi dn ct)).
Proof.
  rewrite !fuse_results_fst.
  assert (G : count_category "weed" d1 = count_category "weed" d2 ->
              count_category "pest" d1 = count_category "pest" d2 ->
              rule5 (apply_rules (np_mean vi) hs hc d1 dn ct)
              = rule5 (apply_rules (np_mean vi) hs hc d2 dn ct)).
  { intros Hw Hp. now rewrite (apply_rules_counts _ hs hc d1 d2 dn ct Hw Hp). }
  split; [exact G|]. split; intros H; apply G.
  - now apply count_category_perm.
  - now apply count_category_perm.
  - now apply count_category_map.
  - now apply count_category_map.
Qed.

(** X10: a detection whose category is neither "weed" nor "pest" is
    ignored: dropping such detections from the list leaves the diagnosis
    unchanged. *)
Theorem fuse_results_ignores_other_categories
        (self : FusionEngine) (mask : Mask) (hs : string) (hc : float)
        (dets : list Detection) (vi : ndarray) (dn ct : string) :
  fst (fuse_results np_mean self mask hs hc
         (filter (fun x => String.eqb (category x) "weed"
                           || String.eqb (category x) "pest")%bool dets)
         vi dn ct)
  = fst (fuse_results np_mean self mask hs hc dets vi dn ct).
Proof.
  rewrite !fuse_results_fst. f_equal. apply apply_rules_counts;
    apply count_category_filter; intros x E; rewrite E;
    [reflexivity | apply orb_true_r].
Qed.

End FuseResultsShape.

(** ** The detector: keywords, boxes and failures *)

Module DetectorMore.
Import Detector DetectorFacts.

Lemma int_of_float_finite (x : float) :
  is_finite x = true <-> exists k, int_of_float x = Ok k.
Proof.
  destruct x; cbn; split; try discriminate; try reflexivity;
    try (intros _; eexists; reflexivity); intros [k H]; discriminate H.
Qed.

Lemma int_of_float_not_finite (x : float) :
  is_finite x = false <-> exists e, int_of_float x = Raise e.
Proof.
  destruct x; cbn; split; try discriminate; try reflexivity;
    try (intros _; eexists; reflexivity); intros [k H]; discriminate H.
Qed.

Lemma int_of_float_ok (x : float) (k : Z) :
  int_of_float x = Ok k -> is_finite x = true.
Proof. intros H. apply int_of_float_finite. now exists k. Qed.

Lemma int_of_float_raise (x : float) (e : string) :
  int_of_float x = Raise e -> is_finite x = false.
Proof. intros H. apply int_of_float_not_finite. now exists e. Qed.

Lemma for_each_app {A S : Type} (body : S -> A -> result S)
      (xs ys : list A) (s : S) :
  for_each body (xs ++ ys) s = (s1 <- for_each body xs s ;; for_each body ys s1).
Proof.
  revert s. induction xs as [|x xs IH]; intros s; cbn [for_each app bind].
  - reflexivity.
  - destruct (body s x); cbn [bind]; [apply IH | reflexivity].
Qed.

Lemma for_each_measure {A S : Type} (m : S -> nat) (body : S -> A -> result S)
      (w : A -> nat) (xs : list A) :
  (forall s x s', body s x = Ok s' -> (m s' <= m s + w x)%nat) ->
  forall s s', for_each body xs s = Ok s' ->
               (m s' <= m s + list_sum (map w xs))%nat.
Proof.
  intros Hb. induction xs as [|x xs IH]; intros s s'; cbn [for_each].
  - intros E. injection E as <-. lia.
  - change (list_sum (map w (x :: xs))) with (w x + list_sum (map w xs))%nat.
    destruct (body s x) as [s1|e] eqn:E1; cbn [bind]; [|discriminate].
    intros E. apply IH in E. apply Hb in E1. lia.
Qed.

Lemma detect_box_grows (r : YoloResult) (dets : list Detection) (box : Box)
      (dets' : list Detection) :
  detect_box r dets box = Ok dets' ->
  (List.length dets' <= List.length dets + 1)%nat.
Proof.
  unfold detect_box.
  destruct (xyxy box) as [[[x1 y1] x2] y2].
  destruct (int_of_float (cls box)) as [k|e]; cbn [bind]; [|discriminate].
  destruct (names_get r k) as [l|e]; cbn [bind]; [|discriminate].
  destruct (_categorize_detection l) as [c|].
  - destruct (truthy c).
    + destruct (int_of_float x1); cbn [bind]; [|discriminate].
      destruct (int_of_float y1); cbn [bind]; [|discriminate].
      destruct (int_of_float x2); cbn [bind]; [|discriminate].
      destruct (int_of_float y2); cbn [bind]; [|discriminate].
      intros E. injection E as <-. rewrite length_app. cbn. lia.
    + intros E. injection E as <-. lia.
  - intros E. injection E as <-. lia.
Qed.

Lemma detect_box_well_formed (r : YoloResult) (dets : list Detection) (box : Box)
      (dets' : list Detection) :
  Forall well_formed dets ->
  detect_box r dets box = Ok dets' ->
  Forall well_formed dets'.
Proof.
  intros Hd. unfold detect_box.
  destruct (xyxy box) as [[[x1 y1] x2] y2].
  destruct (int_of_float (cls box)) as [k|e]; cbn [bind]; [|discriminate].
  destruct (names_get r k) as [l|e]; cbn [bind]; [|discriminate].
  destruct (_categorize_detection l) as [c|] eqn:Ec.
  - destruct (truthy c).
    + destruct (int_of_float x1); cbn [bind]; [|discriminate].
      destruct (int_of_float y1); cbn [bind]; [|discriminate].
      destruct (int_of_float x2); cbn [bind]; [|discriminate].
      destruct (int_of_float y2); cbn [bind]; [|discriminate].
      intros E. injection E as <-.
      apply Forall_app. split; [exact Hd|].
      constructor; [|constructor]. split; [reflexivity | exact Ec].
    + intros E. injection E as <-. exact Hd.
  - intros E. injection E as <-. exact Hd.
Qed.

End DetectorMore.

Import DetectorMore.

(** X11: the keyword 'potted plant' adds nothing to 'plant': a label is a
    weed exactly when its lowercased text contains "plant", and a pest
    exactly when it does not and contains "bird", "insect" or "bee"; upper
    and lower case make no difference. *)
Theorem plant_keyword_decides_weed (l : string) :
  any_in weed_keywords (lower l) = str_in "plant" (lower l)
  /\ (_categorize_detection l = Some "weed" <-> str_in "plant" (lower l) = true)
  /\ (_categorize_detection l = Some "pest"
      <-> str_in "plant" (lower l) = false
          /\ (str_in "bird" (lower l) || str_in "insect" (lower l)
              || str_in "bee" (lower l))%bool = true)
  /\ _categorize_detection (lower l) = _categorize_detection l.
Proof.
  assert (W : any_in weed_keywords (lower l) = str_in "plant" (lower l)).
  { unfold any_in, weed_keywords. cbn [existsb].
    destruct (str_in "plant" (lower l)) eqn:P; [reflexivity|].
    destruct (str_in "potted plant" (lower l)) eqn:Q; [|reflexivity].
    apply (str_in_suffix "potted " "plant") in Q. congruence. }
  assert (P : any_in pest_keywords (lower l)
              = (str_in "bird" (lower l) || str_in "insect" (lower l)
                 || str_in "bee" (lower l))%bool).
  { unfold any_in, pest_keywords. cbn [existsb].
    now rewrite orb_false_r, orb_assoc. }
  split; [exact W|].
  unfold _categorize_detection. rewrite lower_idem, W, P.
  destruct (str_in "plant" (lower l));
    destruct (str_in "bird" (lower l) || str_in "insect" (lower l)
              || str_in "bee" (lower l))%bool;
    repeat split; try discriminate; try reflexivity;
    try (intros [H1 H2]; discriminate).
Qed.

Section DetectMore.

Variable Image : Type.

(** X12: every detection that [detect] returns has a box of four integers
    and carries the category of its own label. *)
Theorem detect_detections_well_formed
        (self : WeedPestDetector Image) (image : Image) :
  Forall (fun x => List.length (bbox x) = 4%nat
                   /\ _categorize_detection (label x) = Some (category x))
         (fst (detect self image)).
Proof.
  unfold detect. destruct (available self); cbn [negb fst]; [|constructor].
  destruct (detect_try self image) as [dets|e] eqn:E; cbn [fst]; [|constructor].
  revert E. unfold detect_try.
  destruct (model self image) as [results|e]; cbn [bind]; [|discriminate].
  apply (for_each_invariant (Forall well_formed)); [|constructor].
  intros s r s' Hs. unfold detect_result.
  apply (for_each_invariant (Forall well_formed)); [|exact Hs].
  intros s0 b s1. apply detect_box_well_formed.
Qed.

(** X13: [detect] returns at most one detection for each box of the model's
    results. *)
Theorem detect_at_most_one_per_box
        (self : WeedPestDetector Image) (image : Image)
        (results : list YoloResult) :
  model self image = Ok results ->
  (List.length (fst (detect self image))
   <= list_sum (map (fun r => List.length (boxes r)) results))%nat.
Proof.
  intros M. unfold detect. destruct (available self); cbn [negb fst]; [|cbn; lia].
  destruct (detect_try self image) as [dets|e] eqn:E; cbn [fst]; [|cbn; lia].
  revert E. unfold detect_try. rewrite M. cbn [bind]. intros E.
  apply (for_each_measure (@List.length Detection) detect_result
           (fun r => List.length (boxes r))) in E; [exact E|].
  intros s r s' H. unfold detect_result in H.
  apply (for_each_measure (@List.length Detection) (detect_box r)
           (fun _ => 1%nat)) in H.
  - replace (list_sum (map (fun _ => 1%nat) (boxes r)))
      with (List.length (boxes r)) in H; [exact H|].
    clear. induction (boxes r) as [|b l IH]; [reflexivity|].
    change (list_sum (map (fun _ => 1%nat) (b :: l)))
      with (S (list_sum (map (fun _ : Box => 1%nat) l))).
    cbn [List.length]. now rewrite IH.
  - intros s0 b s1. apply detect_box_grows.
Qed.

(** X14: one bad box loses every detection.  When the model returns and a
    box of one of its results makes the loop body raise, [detect] returns
    the empty list with "Detection failed: " and the message, whatever the
    boxes before it contributed. *)
Theorem detect_all_or_nothing
        (self : WeedPestDetector Image) (image : Image)
        (rs1 rs2 : list YoloResult) (r : YoloResult)
        (bs1 bs2 : list Box) (b : Box) (ds0 ds1 : list Detection) (e : string) :
  available self = true ->
  model self image = Ok (rs1 ++ r :: rs2)%list ->
  for_each detect_result rs1 [] = Ok ds0 ->
  boxes r = (bs1 ++ b :: bs2)%list ->
  for_each (detect_box r) bs1 ds0 = Ok ds1 ->
  detect_box r ds1 b = Raise e ->
  detect self image = ([], "Detection failed: " ++ e).
Proof.
  intros Ha M R0 B R1 Rb. unfold detect, detect_try. rewrite Ha, M.
  cbn [negb bind]. rewrite for_each_app, R0. cbn [bind for_each].
  unfold detect_result at 1. rewrite B, for_each_app, R1.
  cbn [bind for_each]. rewrite Rb. reflexivity.
Qed.

End DetectMore.

(** X15: the loop body raises on a box exactly when its class number is NaN
    or infinite, or is no key of the label table, or when the label is a
    weed or a pest and one of the four coordinates is NaN or infinite; a
    box with another label is skipped whatever its coordinates. *)
Theorem detect_box_raises (r : YoloResult) (dets : list Detection) (box : Box) :
  let '(x1, y1, x2, y2) := xyxy box in
  (exists e, detect_box r dets box = Raise e)
  <-> (is_finite (cls box) = false
       \/ (exists k, int_of_float (cls box) = Ok k /\ names r k = None)
       \/ (exists k l, int_of_float (cls box) = Ok k /\ names r k = Some l
                       /\ _categorize_detection l <> None
                       /\ (is_finite x1 && is_finite y1
                           && is_finite x2 && is_finite y2)%bool = false)).
Proof.
  unfold detect_box, names_get.
  destruct (xyxy box) as [[[x1 y1] x2] y2].
  destruct (int_of_float (cls box)) as [k|e] eqn:Ek; cbn [bind].
  - assert (Fk : is_finite (cls box) = true)
      by (apply int_of_float_finite; now exists k).
    destruct (names r k) as [l|] eqn:En; cbn [bind].
    + destruct (_categorize_detection l) as [c|] eqn:Ec.
      * assert (Tc : truthy c = true)
          by (destruct (categorize_cases l c Ec) as [-> | ->]; reflexivity).
        rewrite Tc.
        destruct (int_of_float x1) as [?|e1] eqn:E1;
          destruct (int_of_float y1) as [?|e2] eqn:E2;
          destruct (int_of_float x2) as [?|e3] eqn:E3;
          destruct (int_of_float y2) as [?|e4] eqn:E4; cbn [bind];
          first [apply int_of_float_ok in E1 | apply int_of_float_raise in E1];
          first [apply int_of_float_ok in E2 | apply int_of_float_raise in E2];
          first [apply int_of_float_ok in E3 | apply int_of_float_raise in E3];
          first [apply int_of_float_ok in E4 | apply int_of_float_raise in E4];
          (split;
           [ intros [e HR]; try discriminate HR;
             right; right; exists k, l;
             repeat split; try assumption; try congruence;
             rewrite E1, E2, E3, E4; reflexivity
           | intros [HA | [(k0 & HA & HB) | (k0 & l0 & HA & HB & HC & HD)]];
             try congruence; try (eexists; reflexivity);
             rewrite E1, E2, E3, E4 in HD; discriminate HD ]).
      * split; [intros [e HR]; discriminate HR|].
        intros [HA | [(k0 & HA & HB) | (k0 & l0 & HA & HB & HC & _)]];
          congruence.
    + split; [intros _; right; left; now exists k | intros _; eexists; reflexivity].
  - split; [intros _; left; apply int_of_float_not_finite; now exists e
           | intros _; now exists e].
Qed.

Lemma detect_at_most_one_per_box_witness :
  model sample_detector tt = Ok [sample_result]
  /\ (List.length (fst (detect sample_detector tt)) <= 3)%nat.
Proof.
  split; [reflexivity|].
  exact (detect_at_most_one_per_box unit sample_detector tt [sample_result]
           eq_refl).
Defined.

Lemma detect_all_or_nothing_witness :
  for_each (detect_box broken_result) [sample_box 58] []
  = Ok [ {| bbox := [10; 40; 199; 300]; det_confidence := lit 3 4;
            label := "potted plant"; category := "weed" |} ]
  /\ detect broken_detector tt
     = ([], "Detection failed: cannot convert float NaN to integer").
Proof.
  assert (E : for_each (detect_box broken_result) [sample_box 58] []
              = Ok [ {| bbox := [10; 40; 199; 300]; det_confidence := lit 3 4;
                        label := "potted plant"; category := "weed" |} ])
    by (vm_compute; reflexivity).
  split; [exact E|].
  exact (detect_all_or_nothing unit broken_detector tt [] [] broken_result
           [sample_box 58] [sample_box 14] nan_box [] _ _
           eq_refl eq_refl eq_refl eq_refl E eq_refl).
Defined.

(** ** The pipeline: classifier, detector and fusion engine together *)

Lemma detect_categories {Image : Type} (self : WeedPestDetector Image)
      (image : Image) :
  Forall weed_or_pest (fst (detect self image)).
Proof.
  unfold detect. destruct (available self); cbn [negb fst]; [|constructor].
  destruct (detect_try self image) as [dets|e] eqn:E; cbn [fst]; [|constructor].
  exact (detect_try_categories self image dets E).
Qed.

Lemma detect_status {Image : Type} (self : WeedPestDetector Image)
      (image : Image) :
  snd (detect self image) <> "Success" -> fst (detect self image) = [].
Proof.
  unfold detect. destruct (available self); cbn [negb fst snd]; [|reflexivity].
  destruct (detect_try self image); cbn [fst snd]; [congruence | reflexivity].
Qed.

Lemma count_partition (dets : list Detection) :
  Forall weed_or_pest dets ->
  count_category "weed" dets + count_category "pest" dets
  = Z.of_nat (List.length dets).
Proof.
  intros H. rewrite !count_category_length.
  induction H as [|x l Hx _ IH]; [reflexivity|].
  cbn [filter List.length].
  destruct Hx as [E|E]; rewrite E; cbn [String.eqb Ascii.eqb Bool.eqb];
    cbn [List.length]; lia.
Qed.

Lemma stress_recommendation_iff (avg : float) (hs : string) (hc : float)
      (dets : list Detection) (dn ct : string) :
  In stress_recommendation
     (recommendations (rule5 (apply_rules avg hs hc dets dn ct)))
  <-> (String.eqb hs "Diseased" = false /\ String.eqb hs "Stressed" = true).
Proof.
  rewrite rule5_recommendations, apply_rules_recommendations.
  split_rules avg hs dets; cbn [andb app In];
    (split; [intros H | intros [H1 H2]; try discriminate; auto 10]);
    try (split; reflexivity);
    repeat match type of H with _ \/ _ => destruct H as [H|H] end;
    try contradiction;
    try (unfold disease_recommendation, stress_recommendation in H;
         cbn [append] in H);
    discriminate H.
Qed.

Lemma weed_pest_recommendation_iff (avg : float) (hs : string) (hc : float)
      (dets : list Detection) (dn ct : string) :
  (In weed_recommendation
      (recommendations (rule5 (apply_rules avg hs hc dets dn ct)))
   <-> 0 < count_category "weed" dets)
  /\ (In pest_recommendation
         (recommendations (rule5 (apply_rules avg hs hc dets dn ct)))
      <-> 0 < count_category "pest" dets).
Proof.
  rewrite rule5_recommendations, apply_rules_recommendations, <- !Z.ltb_lt.
  split_rules avg hs dets; cbn [andb app In];
    (split; (split; [intros H | intros H; try discriminate H; auto 10]));
    try reflexivity;
    repeat match type of H with _ \/ _ => destruct H as [H|H] end;
    try contradiction;
    try (unfold disease_recommendation, weed_recommendation,
           pest_recommendation in H; cbn [append] in H);
    discriminate H.
Qed.

Section AnalyzeFacts.

Import Analyzer.

Variable Image Tensor Mask ndarray : Type.
Variable np_mean : ndarray -> float.

Lemma analyze_inv (self : AgriDroneAnalyzer Image Tensor Mask ndarray)
      (path : Image) (res : Results Image Mask ndarray) (st : string)
      (eng : FusionEngine) :
  analyze np_mean self path = Ok (res, st, eng) ->
  exists img t m1 full c dn ctp,
    load_image self path = Ok img
    /\ preprocess self img = Ok (original res, resized res)
    /\ preprocess_tensor self img = Ok t
    /\ segment self t = Ok (m1, segmentation_mask res)
    /\ classify self t = Ok (full, c)
    /\ health_of_label full c
       = Ok (if str_in "healthy" (lower dn) then "Healthy" else "Diseased",
             c, dn, ctp)
    /\ detect (weed_pest_detector self) (resized res) = (detections res, st)
    /\ excess_green_index self (resized res) = Ok (vegetation_index res)
    /\ create_health_map self (vegetation_index res) = Ok (health_map res)
    /\ diagnosis res
       = rule5 (apply_rules (np_mean (vegetation_index res))
                  (if str_in "healthy" (lower dn) then "Healthy" else "Diseased")
                  c (detections res) dn ctp)
    /\ eng = fusion_engine self.
Proof.
  unfold analyze, classify_health.
  destruct (load_image self path) as [img|] eqn:E1; cbn [bind]; [|discriminate].
  destruct (preprocess self img) as [[o r]|] eqn:E2; cbn [bind]; [|discriminate].
  destruct (preprocess_tensor self img) as [t|] eqn:E3; cbn [bind];
    [|discriminate].
  destruct (segment self t) as [[m1 m2]|] eqn:E4; cbn [bind]; [|discriminate].
  destruct (classify self t) as [[full c]|] eqn:E5; cbn [bind]; [|discriminate].
  destruct (health_of_label_cases full c) as (ctp & dn & E & _).
  rewrite E. cbn [bind].
  destruct (detect (weed_pest_detector self) r) as [dets dst] eqn:D.
  destruct (excess_green_index self r) as [v|] eqn:E6; cbn [bind];
    [|discriminate].
  destruct (create_health_map self v) as [h|] eqn:E7; cbn [bind];
    [|discriminate].
  unfold fuse_results. intros I. injection I as <- <- <-.
  cbn [original resized segmentation_mask detections health_map
         vegetation_index diagnosis].
  exists img, t, m1, full, c, dn, ctp. repeat split; assumption.
Qed.

(** X16: the analysis returns whenever the image operations, the
    segmentation model and the classifier return: the detector cannot make
    it fail.  The results then hold the detector's list with its status, and
    the fusion engine is as before. *)
Theorem analyze_returns (self : AgriDroneAnalyzer Image Tensor Mask ndarray)
        (path img o r hm : Image) (t : Tensor) (m1 m2 : Mask)
        (full : string) (c : float) (v : ndarray) :
  load_image self path = Ok img ->
  preprocess self img = Ok (o, r) ->
  preprocess_tensor self img = Ok t ->
  segment self t = Ok (m1, m2) ->
  classify self t = Ok (full, c) ->
  excess_green_index self r = Ok v ->
  create_health_map self v = Ok hm ->
  exists res,
    analyze np_mean self path
    = Ok (res, snd (detect (weed_pest_detector self) r), fusion_engine self)
    /\ detections res = fst (detect (weed_pest_detector self) r)
    /\ segmentation_mask res = m2 /\ vegetation_index res = v
    /\ confidence (diagnosis res) = c.
Proof.
  intros H1 H2 H3 H4 H5 H6 H7. unfold analyze, classify_health.
  rewrite H1. cbn [bind]. rewrite H2. cbn [bind]. rewrite H3. cbn [bind].
  rewrite H4. cbn [bind]. rewrite H5. cbn [bind].
  destruct (health_of_label_cases full c) as (ctp & dn & E & _).
  rewrite E. cbn [bind].
  destruct (detect (weed_pest_detector self) r) as [dets dst].
  rewrite H6. cbn [bind]. rewrite H7. cbn [bind]. unfold fuse_results.
  eexists. split; [reflexivity|]. cbn [detections segmentation_mask
    vegetation_index diagnosis fst snd]. repeat split.
  apply (rule_health (np_mean v) _ c dets dn ctp).
Qed.

(** X17: in a diagnosis of the pipeline the status is "Healthy" or
    "Diseased", and it is "Healthy" exactly when the disease name contains
    "healthy"; the stress recommendation is never given, and the diagnosis
    panel is never drawn on the background colour of a stressed crop. *)
Theorem analyze_never_stressed
        (self : AgriDroneAnalyzer Image Tensor Mask ndarray)
        (path : Image) (res : Results Image Mask ndarray) (st : string)
        (eng : FusionEngine) :
  analyze np_mean self path = Ok (res, st, eng) ->
  (overall_health (diagnosis res) = "Healthy"
   \/ overall_health (diagnosis res) = "Diseased")
  /\ (overall_health (diagnosis res) = "Healthy"
      <-> str_in "healthy" (lower (disease_name (diagnosis res))) = true)
  /\ ~ In "Check irrigation and nutrient levels"
          (recommendations (diagnosis res))
  /\ bg_color (diagnosis res) <> "#fff3cd".
Proof.
  intros H. apply analyze_inv in H.
  destruct H as (img & t & m1 & full & c & dn & ctp & _ & _ & _ & _ & _ & _
                 & _ & _ & _ & D & _).
  destruct (rule_health (np_mean (vegetation_index res))
              (if str_in "healthy" (lower dn) then "Healthy" else "Diseased")
              c (detections res) dn ctp) as (Ho & _ & _ & Hd).
  rewrite <- D in Ho, Hd. unfold bg_color. rewrite Ho, Hd.
  split; [destruct (str_in "healthy" (lower dn)); auto|].
  split; [destruct (str_in "healthy" (lower dn)); split; congruence|].
  split.
  - rewrite D. intros I. apply stress_recommendation_iff in I.
    destruct I as [_ I]. destruct (str_in "healthy" (lower dn)); discriminate I.
  - destruct (str_in "healthy" (lower dn)); discriminate.
Qed.

(** X18: in the pipeline every detection is a weed or a pest, so the two
    counts of the fusion engine add up to the number of detections, and a
    non-empty detection list always puts an issue in the diagnosis.  A
    detection is boxed in red when it is a weed and in orange exactly when
    it is a pest. *)
Theorem analyze_detections_counted
        (self : AgriDroneAnalyzer Image Tensor Mask ndarray)
        (path : Image) (res : Results Image Mask ndarray) (st : string)
        (eng : FusionEngine) :
  analyze np_mean self path = Ok (res, st, eng) ->
  count_category "weed" (detections res) + count_category "pest" (detections res)
  = Z.of_nat (List.length (detections res))
  /\ (detections res <> [] -> issues (diagnosis res) <> [])
  /\ Forall (fun x => (category x = "weed" /\ box_color x = (255, 0, 0))
                      \/ (category x = "pest" /\ box_color x = (255, 165, 0)))
            (detections res).
Proof.
  intros H. apply analyze_inv in H.
  destruct H as (img & t & m1 & full & c & dn & ctp & _ & _ & _ & _ & _ & _
                 & Hdet & _ & _ & D & _).
  assert (F : Forall weed_or_pest (detections res)).
  { pose proof (detect_categories (weed_pest_detector self) (resized res)) as F.
    now rewrite Hdet in F. }
  pose proof (count_partition _ F) as P.
  split; [exact P|]. split.
  - intros Hne. rewrite D, rule5_issues, apply_rules_issues.
    assert (L : 0 < Z.of_nat (List.length (detections res)))
      by (destruct (detections res); [congruence | cbn [List.length]; lia]).
    destruct (0 <? count_category "weed" (detections res)) eqn:W;
      destruct (0 <? count_category "pest" (detections res)) eqn:Q;
      try (apply Z.ltb_ge in W; apply Z.ltb_ge in Q; lia);
      destruct (lt (np_mean (vegetation_index res)) vi_threshold);
      destruct (str_in "healthy" (lower dn));
      cbn [String.eqb Ascii.eqb Bool.eqb andb app]; discriminate.
  - apply (Forall_impl _ (P := weed_or_pest)); [|exact F].
    intros x [E|E]; unfold box_color; rewrite E; [left | right];
      split; reflexivity.
Qed.

(** X19: when the detector reports anything but "Success", the results
    hold no detection and the diagnosis recommends neither herbicide nor
    pest monitoring: a failed detection reads as a field without weeds and
    pests. *)
Theorem analyze_detector_failure_is_silent
        (self : AgriDroneAnalyzer Image Tensor Mask ndarray)
        (path : Image) (res : Results Image Mask ndarray) (st : string)
        (eng : FusionEngine) :
  analyze np_mean self path = Ok (res, st, eng) ->
  st <> "Success" ->
  detections res = []
  /\ ~ In weed_recommendation (recommendations (diagnosis res))
  /\ ~ In pest_recommendation (recommendations (diagnosis res)).
Proof.
  intros H Hst. apply analyze_inv in H.
  destruct H as (img & t & m1 & full & c & dn & ctp & _ & _ & _ & _ & _ & _
                 & Hdet & _ & _ & D & _).
  assert (E : detections res = []).
  { pose proof (detect_status (weed_pest_detector self) (resized res)) as S.
    rewrite Hdet in S. exact (S Hst). }
  split; [exact E|]. rewrite D, E.
  destruct (weed_pest_recommendation_iff (np_mean (vegetation_index res))
              (if str_in "healthy" (lower dn) then "Healthy" else "Diseased")
              c [] dn ctp) as [W P].
  rewrite W, P. split; intros I; discriminate I.
Qed.

(** X20: the crop type and the disease name of a diagnosis of the pipeline
    contain no underscore, and its confidence is the probability the
    classifier gave. *)
Theorem analyze_names_without_underscore
        (self : AgriDroneAnalyzer Image Tensor Mask ndarray)
        (path : Image) (res : Results Image Mask ndarray) (st : string)
        (eng : FusionEngine) :
  analyze np_mean self path = Ok (res, st, eng) ->
  str_in "_" (crop_type (diagnosis res)) = false
  /\ str_in "_" (disease_name (diagnosis res)) = false
  /\ exists t full, classify self t = Ok (full, confidence (diagnosis res)).
Proof.
  intros H. apply analyze_inv in H.
  destruct H as (img & t & m1 & full & c & dn & ctp & _ & _ & _ & _ & Hc & Hl
                 & _ & _ & _ & D & _).
  destruct (rule_health (np_mean (vegetation_index res))
              (if str_in "healthy" (lower dn) then "Healthy" else "Diseased")
              c (detections res) dn ctp) as (_ & Hcf & Hct & Hdn).
  rewrite <- D in Hcf, Hct, Hdn. rewrite Hct, Hdn, Hcf.
  destruct (health_of_label_no_underscore_aux full c _ dn ctp c Hl) as [U1 U2].
  split; [exact U2|]. split; [exact U1|]. now exists t, full.
Qed.

End AnalyzeFacts.

(** ** Instances *)

Lemma default_recommendation_when_no_issue_witness :
  issues (fst (fuse_results scalar_mean FusionEngine_init tt "Healthy"
                 (lit 99 100) [] (lit 8 10) "healthy" "Corn")) = []
  /\ recommendations (fst (fuse_results scalar_mean FusionEngine_init tt
                             "Healthy" (lit 99 100) [] (lit 8 10) "healthy"
                             "Corn"))
     = ["Continue regular monitoring"].
Proof.
  assert (E : issues (fst (fuse_results scalar_mean FusionEngine_init tt
                             "Healthy" (lit 99 100) [] (lit 8 10) "healthy"
                             "Corn")) = [])
    by (vm_compute; reflexivity).
  split; [exact E|].
  destruct (default_recommendation_when_no_issue unit float scalar_mean
              FusionEngine_init tt "Healthy" (lit 99 100) [] (lit 8 10)
              "healthy" "Corn") as [_ H].
  exact (H E).
Defined.

Lemma critical_issue_exactly_witness :
  ~ In "CRITICAL: Multiple stress factors detected"
       (issues (fst (fuse_results scalar_mean FusionEngine_init tt "Stressed"
                       (lit 1 2) [] (lit 1 10) "" ""))).
Proof.
  destruct (critical_issue_exactly unit float scalar_mean FusionEngine_init tt
              "Stressed" (lit 1 2) [] (lit 1 10) "" "") as [_ H].
  exact (H eq_refl).
Defined.

Lemma fuse_results_depends_on_comparison_only_witness :
  lt (scalar_mean (lit 1 10)) vi_threshold = lt (scalar_mean (lit 2 10)) vi_threshold
  /\ fst (fuse_results scalar_mean FusionEngine_init tt "Diseased" (lit 9 10) []
            (lit 1 10) "Leaf Blight" "Tomato")
     = fst (fuse_results scalar_mean FusionEngine_init tt "Diseased" (lit 9 10) []
              (lit 2 10) "Leaf Blight" "Tomato").
Proof.
  assert (E : lt (scalar_mean (lit 1 10)) vi_threshold
              = lt (scalar_mean (lit 2 10)) vi_threshold)
    by (vm_compute; reflexivity).
  split; [exact E|].
  exact (fuse_results_depends_on_comparison_only unit float scalar_mean
           FusionEngine_init tt "Diseased" (lit 9 10) [] (lit 1 10) (lit 2 10)
           "Leaf Blight" "Tomato" E).
Defined.

Lemma nan_average_is_not_low_witness :
  scalar_mean S754_nan = S754_nan
  /\ ~ In low_vi_issue
         (issues (fst (fuse_results scalar_mean FusionEngine_init tt "Diseased"
                         (lit 9 10) [] S754_nan "Leaf Blight" "Tomato"))).
Proof.
  split; [reflexivity|].
  destruct (nan_average_is_not_low unit float scalar_mean FusionEngine_init tt
              "Diseased" (lit 9 10) [] S754_nan "Leaf Blight" "Tomato" eq_refl)
    as [H _].
  exact H.
Defined.

Lemma fuse_results_detections_as_counts_witness :
  Permutation [detection_of "weed"; detection_of "pest"]
              [detection_of "pest"; detection_of "weed"]
  /\ fst (fuse_results scalar_mean FusionEngine_init tt "Unknown"
            (S754_zero false) [detection_of "weed"; detection_of "pest"]
            (lit 5 10) "" "")
     = fst (fuse_results scalar_mean FusionEngine_init tt "Unknown"
              (S754_zero false) [detection_of "pest"; detection_of "weed"]
              (lit 5 10) "" "").
Proof.
  assert (P : Permutation [detection_of "weed"; detection_of "pest"]
                          [detection_of "pest"; detection_of "weed"])
    by apply perm_swap.
  split; [exact P|].
  destruct (fuse_results_detections_as_counts unit float scalar_mean
              FusionEngine_init tt "Unknown" (S754_zero false)
              [detection_of "weed"; detection_of "pest"]
              [detection_of "pest"; detection_of "weed"] (lit 5 10) "" "")
    as (_ & H & _).
  exact (H P).
Defined.

Lemma analyze_returns_witness :
  exists res,
    Analyzer.analyze scalar_mean
      (sample_analyzer "Tomato___Late_blight" failing_detector) tt
    = Ok (res, "Detection failed: CUDA out of memory", FusionEngine_init)
    /\ Analyzer.detections res = [].
Proof.
  destruct (analyze_returns unit unit unit float scalar_mean
              (sample_analyzer "Tomato___Late_blight" failing_detector)
              tt tt tt tt tt tt tt tt "Tomato___Late_blight" (lit 9 10) (lit 1 2)
              eq_refl eq_refl eq_refl eq_refl eq_refl eq_refl eq_refl)
    as (res & E & D & _).
  exists res. split; [exact E | exact D].
Defined.

Lemma analyze_never_stressed_witness :
  exists res st eng,
    Analyzer.analyze scalar_mean
      (sample_analyzer "Tomato___Late_blight" sample_detector) tt
    = Ok (res, st, eng)
    /\ ~ In "Check irrigation and nutrient levels"
           (recommendations (Analyzer.diagnosis res)).
Proof.
  destruct (Analyzer.analyze scalar_mean
              (sample_analyzer "Tomato___Late_blight" sample_detector) tt)
    as [[[res st] eng]|e] eqn:E; [|vm_compute in E; discriminate E].
  exists res, st, eng. split; [reflexivity|].
  destruct (analyze_never_stressed unit unit unit float scalar_mean
              _ tt res st eng E) as (_ & _ & H & _).
  exact H.
Defined.

Lemma analyze_detections_counted_witness :
  exists res st eng,
    Analyzer.analyze scalar_mean
      (sample_analyzer "Tomato___healthy" sample_detector) tt
    = Ok (res, st, eng)
    /\ count_category "weed" (Analyzer.detections res)
       + count_category "pest" (Analyzer.detections res)
       = Z.of_nat (List.length (Analyzer.detections res)).
Proof.
  destruct (Analyzer.analyze scalar_mean
              (sample_analyzer "Tomato___healthy" sample_detector) tt)
    as [[[res st] eng]|e] eqn:E; [|vm_compute in E; discriminate E].
  exists res, st, eng. split; [reflexivity|].
  destruct (analyze_detections_counted unit unit unit float scalar_mean
              _ tt res st eng E) as (H & _).
  exact H.
Defined.

Lemma analyze_detector_failure_is_silent_witness :
  exists res st eng,
    Analyzer.analyze scalar_mean
      (sample_analyzer "Tomato___healthy" broken_detector) tt
    = Ok (res, st, eng)
    /\ st <> "Success" /\ Analyzer.detections res = [].
Proof.
  destruct (Analyzer.analyze scalar_mean
              (sample_analyzer "Tomato___healthy" broken_detector) tt)
    as [[[res st] eng]|e] eqn:E; [|vm_compute in E; discriminate E].
  assert (S : st <> "Success").
  { pose proof E as E'. vm_compute in E'. injection E' as _ <- _. discriminate. }
  exists res, st, eng. split; [reflexivity|]. split; [exact S|].
  destruct (analyze_detector_failure_is_silent unit unit unit float scalar_mean
              _ tt res st eng E S) as (H & _).
  exact H.
Defined.

Lemma analyze_names_without_underscore_witness :
  exists res st eng,
    Analyzer.analyze scalar_mean
      (sample_analyzer "Corn_(maize)___Common_rust_" missing_detector) tt
    = Ok (res, st, eng)
    /\ str_in "_" (crop_type (Analyzer.diagnosis res)) = false.
Proof.
  destruct (Analyzer.analyze scalar_mean
              (sample_analyzer "Corn_(maize)___Common_rust_" missing_detector) tt)
    as [[[res st] eng]|e] eqn:E; [|vm_compute in E; discriminate E].
  exists res, st, eng. split; [reflexivity|].
  destruct (analyze_names_without_underscore unit unit unit float scalar_mean
              _ tt res st eng E) as (H & _).
  exact H.
Defined.

Example analyze_sample :
  match Analyzer.analyze scalar_mean
          (sample_analyzer "Tomato___Late_blight" sample_detector) tt with
  | Ok (res, st, _) =>
      st = "Success"
      /\ issues (Analyzer.diagnosis res)
         = ["Disease detected: Late blight (confidence: 90.00%)";
            "1 potential weed(s) detected"; "1 potential pest(s) detected"]
  | Raise _ => False
  end.
Proof. vm_compute. split; reflexivity. Qed.

(** ** The fusion engine on a heap: nothing shared, nothing kept *)

Module HeapFacts.
Import Heap.

Lemma hbind_step {A B : Type} (m : M A) (k : A -> M B) (h h' : heap) (a : A) :
  m h = Some (a, h') -> hbind m k h = k a h'.
Proof. intros E. unfold hbind. now rewrite E. Qed.

Lemma update_app (h t : heap) (k : nat) (o : obj) :
  update (List.length h + k) o (h ++ t)%list = (h ++ update k o t)%list.
Proof.
  induction h as [|x h IH]; cbn [List.length Nat.add app update];
    [reflexivity | now rewrite IH].
Qed.

Lemma nth_error_old (h : heap) (d : Diagnosis) (l : nat) :
  (l < List.length h)%nat -> nth_error (with_diagnosis h d) l = nth_error h l.
Proof. intros H. unfold with_diagnosis. now apply nth_error_app1. Qed.

Lemma nth_error_new (h : heap) (d : Diagnosis) (k : nat) :
  nth_error (with_diagnosis h d) (List.length h + k)
  = nth_error [ListObj (issues d); ListObj (recommendations d);
               DictObj (crop_type d) (disease_name d) (overall_health d)
                 (confidence d) (List.length h) (S (List.length h))] k.
Proof.
  unfold with_diagnosis. rewrite nth_error_app2 by lia. f_equal. lia.
Qed.

Lemma length_with_diagnosis (h : heap) (d : Diagnosis) :
  List.length (with_diagnosis h d) = (List.length h + 3)%nat.
Proof. unfold with_diagnosis. now rewrite length_app. Qed.

Lemma nth_error_issues (h : heap) (d : Diagnosis) :
  nth_error (with_diagnosis h d) (List.length h) = Some (ListObj (issues d)).
Proof.
  rewrite <- (Nat.add_0_r (List.length h)) at 1. now rewrite nth_error_new.
Qed.

Lemma nth_error_recommendations (h : heap) (d : Diagnosis) :
  nth_error (with_diagnosis h d) (S (List.length h))
  = Some (ListObj (recommendations d)).
Proof.
  replace (S (List.length h)) with (List.length h + 1)%nat by lia.
  now rewrite nth_error_new.
Qed.

Lemma nth_error_dict (h : heap) (d : Diagnosis) :
  nth_error (with_diagnosis h d) (List.length h + 2)
  = Some (DictObj (crop_type d) (disease_name d) (overall_health d)
            (confidence d) (List.length h) (S (List.length h))).
Proof. now rewrite nth_error_new. Qed.

Lemma update_issues (h : heap) (d : Diagnosis) (o : obj) :
  update (List.length h) o (with_diagnosis h d)
  = (h ++ [o; ListObj (recommendations d);
           DictObj (crop_type d) (disease_name d) (overall_health d)
             (confidence d) (List.length h) (S (List.length h))])%list.
Proof.
  rewrite <- (Nat.add_0_r (List.length h)) at 1.
  unfold with_diagnosis. now rewrite update_app.
Qed.

Lemma update_recommendations (h : heap) (d : Diagnosis) (o : obj) :
  update (S (List.length h)) o (with_diagnosis h d)
  = (h ++ [ListObj (issues d); o;
           DictObj (crop_type d) (disease_name d) (overall_health d)
             (confidence d) (List.length h) (S (List.length h))])%list.
Proof.
  replace (S (List.length h)) with (List.length h + 1)%nat at 1 by lia.
  unfold with_diagnosis. now rewrite update_app.
Qed.

Lemma update_dict (h : heap) (d : Diagnosis) (o : obj) :
  update (List.length h + 2) o (with_diagnosis h d)
  = (h ++ [ListObj (issues d); ListObj (recommendations d); o])%list.
Proof. unfold with_diagnosis. now rewrite update_app. Qed.

Lemma issues_append_step (h : heap) (d : Diagnosis) (s : string) :
  issues_append (List.length h + 2) s (with_diagnosis h d)
  = Some (tt, with_diagnosis h (Fusion.append_issue s d)).
Proof.
  unfold issues_append, hbind, get_issues. rewrite nth_error_dict.
  unfold list_append. rewrite nth_error_issues, update_issues. reflexivity.
Qed.

Lemma recommendations_append_step (h : heap) (d : Diagnosis) (s : string) :
  recommendations_append (List.length h + 2) s (with_diagnosis h d)
  = Some (tt, with_diagnosis h (Fusion.append_recommendation s d)).
Proof.
  unfold recommendations_append, hbind, get_recommendations.
  rewrite nth_error_dict.
  unfold list_append. rewrite nth_error_recommendations, update_recommendations.
  reflexivity.
Qed.

Lemma set_health_step (h : heap) (d : Diagnosis) (v : string) (c : float)
      {B : Type} (k : M B) :
  hbind (set_overall_health (List.length h + 2) v)
    (fun _ => hbind (set_confidence (List.length h + 2) c) (fun _ => k))
    (with_diagnosis h d)
  = k (with_diagnosis h (Fusion.set_health v c d)).
Proof.
  unfold hbind at 1, set_overall_health.
  rewrite nth_error_dict, update_dict.
  change (h ++ [ListObj (issues d); ListObj (recommendations d);
                DictObj (crop_type d) (disease_name d) v (confidence d)
                  (List.length h) (S (List.length h))])%list
    with (with_diagnosis h
            {| crop_type := crop_type d; disease_name := disease_name d;
               overall_health := v; confidence := confidence d;
               issues := issues d; recommendations := recommendations d |}).
  unfold hbind, set_confidence. rewrite nth_error_dict, update_dict.
  reflexivity.
Qed.

(** A guarded pair of appends does on the heap what the rule does on the
    record. *)
Lemma guarded_appends_step (b : bool) (s1 s2 : string) (h : heap)
      (d : Diagnosis) {B : Type} (k : M B) :
  hbind (if b then
           hbind (issues_append (List.length h + 2) s1)
             (fun _ => recommendations_append (List.length h + 2) s2)
         else ret tt)
    (fun _ => k) (with_diagnosis h d)
  = k (with_diagnosis h
         (if b then Fusion.append_recommendation s2 (Fusion.append_issue s1 d)
          else d)).
Proof.
  destruct b; [|reflexivity].
  unfold hbind at 1 2. rewrite issues_append_step, recommendations_append_step.
  reflexivity.
Qed.

Lemma default_step (h : heap) (d : Diagnosis) (D : nat) :
  D = (List.length h + 2)%nat ->
  hbind (get_recommendations D)
    (fun l => hbind (list_read l)
       (fun recs =>
          hbind (match recs with
                 | [] => recommendations_append D Fusion.default_recommendation
                 | _ :: _ => ret tt
                 end)
            (fun _ => ret D)))
    (with_diagnosis h d)
  = Some (D, with_diagnosis h (Fusion.rule5 d)).
Proof.
  intros ->. unfold hbind at 1, get_recommendations. rewrite nth_error_dict.
  unfold hbind at 1, list_read. rewrite nth_error_recommendations.
  unfold Fusion.rule5. destruct (recommendations d) as [|x l].
  - unfold hbind. rewrite recommendations_append_step. reflexivity.
  - reflexivity.
Qed.

Lemma snapshot_new (h : heap) (d : Diagnosis) :
  snapshot (with_diagnosis h d) (List.length h + 2) = Some d.
Proof.
  unfold snapshot.
  rewrite nth_error_dict, nth_error_issues, nth_error_recommendations.
  now destruct d.
Qed.

Lemma snapshot_old (h : heap) (d d' : Diagnosis) :
  snapshot (with_diagnosis (with_diagnosis h d) d') (List.length h + 2)
  = Some d.
Proof.
  unfold snapshot.
  rewrite nth_error_old by (rewrite length_with_diagnosis; lia).
  rewrite nth_error_dict.
  rewrite (nth_error_old (with_diagnosis h d) d' (List.length h))
    by (rewrite length_with_diagnosis; lia).
  rewrite (nth_error_old (with_diagnosis h d) d' (S (List.length h)))
    by (rewrite length_with_diagnosis; lia).
  rewrite nth_error_issues, nth_error_recommendations.
  now destruct d.
Qed.

Section Run.

Variable Mask : Type.
Variable ndarray : Type.
Variable np_mean : ndarray -> float.

(** The run of [fuse_results_on_heap]: three new objects after the heap it
    started from, holding the diagnosis of the rules. *)
Lemma fuse_results_on_heap_run (h : heap) (self : nat) (mask : Mask)
      (hs : string) (hc : float) (dets : list Detection) (vi : ndarray)
      (dn ct : string) :
  fuse_results_on_heap np_mean self mask hs hc dets vi dn ct h
  = Some ((List.length h + 2)%nat,
          with_diagnosis h
            (Fusion.rule5 (Fusion.apply_rules (np_mean vi) hs hc dets dn ct))).
Proof.
  unfold fuse_results_on_heap.
  unfold hbind at 1, alloc. unfold hbind at 1. unfold hbind at 1.
  rewrite !length_app. cbn [List.length].
  replace ((h ++ [ListObj []]) ++ [ListObj []])%list
    with (h ++ [ListObj []; ListObj []])%list by now rewrite <- app_assoc.
  replace ((h ++ [ListObj []; ListObj []]) ++
           [DictObj ct dn "Unknown" (S754_zero false) (List.length h)
              (List.length h + 1)])%list
    with (with_diagnosis h (Fusion.new_diagnosis ct dn)).
  2:{ unfold with_diagnosis, Fusion.new_diagnosis.
      cbn [issues recommendations crop_type disease_name overall_health
             confidence].
      rewrite <- app_assoc. cbn [app].
      now replace (List.length h + 1)%nat with (S (List.length h)) by lia. }
  replace (List.length h + 1 + 1)%nat with (List.length h + 2)%nat by lia.
  rewrite guarded_appends_step.
  rewrite set_health_step.
  match goal with
  | |- hbind (if ?b1 then ?x else if ?b2 then ?y else ret tt) ?k ?hp = _ =>
      replace (hbind (if b1 then x else if b2 then y else ret tt) k hp)
        with (hbind (if b1 then x else ret tt)
                (fun _ => hbind (if (negb b1 && b2)%bool then y else ret tt) k)
                hp)
        by (destruct b1, b2; reflexivity)
  end.
  rewrite !guarded_appends_step.
  rewrite default_step by reflexivity.
  do 2 f_equal.
  unfold Fusion.apply_rules, Fusion.rule4, Fusion.rule3, Fusion.rule2,
    Fusion.rule1.
  destruct (String.eqb hs "Diseased"); destruct (String.eqb hs "Stressed");
    reflexivity.
Qed.

End Run.

End HeapFacts.

Section NoHiddenState.

Import Heap HeapFacts.

Variable Mask : Type.
Variable ndarray : Type.
Variable np_mean : ndarray -> float.

(** C9: [fuse_results] is a deterministic mapping without hidden state.
    Run on any heap and with any [self], a call returns a reference to a
    diagnosis dict that did not exist before, whose two lists did not exist
    before either; it leaves every object that existed before it as it was,
    the engine and earlier diagnoses included; and the content of the
    diagnosis is the value the rules give for the arguments, whatever the
    heap and [self] are.  A second call with the same inputs therefore
    returns another dict with equal content, and does not touch the first. *)
Theorem fuse_results_builds_fresh_diagnosis
        (h : heap) (self : nat) (engine : FusionEngine) (mask : Mask)
        (hs : string) (hc : float) (dets : list Detection) (vi : ndarray)
        (dn ct : string) :
  exists d1 h1 d2 h2,
    fuse_results_on_heap np_mean self mask hs hc dets vi dn ct h = Some (d1, h1)
    /\ fuse_results_on_heap np_mean self mask hs hc dets vi dn ct h1
       = Some (d2, h2)
    /\ (forall l, (l < List.length h)%nat -> nth_error h1 l = nth_error h l)
    /\ (forall l, (l < List.length h1)%nat -> nth_error h2 l = nth_error h1 l)
    /\ (List.length h <= d1 < List.length h1)%nat
    /\ (List.length h1 <= d2 < List.length h2)%nat
    /\ (exists ct' dn' oh c i r,
           nth_error h1 d1 = Some (DictObj ct' dn' oh c i r)
           /\ (List.length h <= i < List.length h1)%nat
           /\ (List.length h <= r < List.length h1)%nat /\ i <> r)
    /\ snapshot h1 d1
       = Some (fst (fuse_results np_mean engine mask hs hc dets vi dn ct))
    /\ snapshot h2 d2 = snapshot h1 d1
    /\ snapshot h2 d1 = snapshot h1 d1
    /\ (forall (h' : heap) (self' : nat),
           exists d' h'',
             fuse_results_on_heap np_mean self' mask hs hc dets vi dn ct h'
             = Some (d', h'')
             /\ snapshot h'' d' = snapshot h1 d1).
Proof.
  set (d := Fusion.rule5 (Fusion.apply_rules (np_mean vi) hs hc dets dn ct)).
  exists (List.length h + 2)%nat, (with_diagnosis h d),
    (List.length (with_diagnosis h d) + 2)%nat,
    (with_diagnosis (with_diagnosis h d) d).
  split; [apply fuse_results_on_heap_run|].
  split; [apply fuse_results_on_heap_run|].
  split; [intros l H; now apply nth_error_old|].
  split; [intros l H; now apply nth_error_old|].
  rewrite !length_with_diagnosis.
  split; [lia|]. split; [lia|].
  split.
  { exists (crop_type d), (disease_name d), (overall_health d), (confidence d),
      (List.length h), (S (List.length h)).
    split; [apply nth_error_dict | lia]. }
  rewrite fuse_results_fst. fold d.
  rewrite snapshot_new.
  split; [reflexivity|].
  split.
  { rewrite <- (length_with_diagnosis h d). apply snapshot_new. }
  split; [apply snapshot_old|].
  intros h' self'.
  exists (List.length h' + 2)%nat, (with_diagnosis h' d).
  split; [apply fuse_results_on_heap_run | apply snapshot_new].
Qed.

End NoHiddenState.

Lemma fuse_results_builds_fresh_diagnosis_witness :
  exists d1 h1,
    Heap.fuse_results_on_heap list_mean 0%nat true "Diseased" (lit 9 10) []
      [lit 1 10; lit 3 10] "Leaf Blight" "Tomato" sample_heap
    = Some (d1, h1)
    /\ (0 < List.length sample_heap)%nat
    /\ nth_error h1 0 = nth_error sample_heap 0
    /\ (3 < List.length sample_heap)%nat
    /\ nth_error h1 3 = nth_error sample_heap 3
    /\ (4 <= d1)%nat.
Proof.
  destruct (fuse_results_builds_fresh_diagnosis bool (list float) list_mean
              sample_heap 0%nat FusionEngine_init true "Diseased" (lit 9 10)
              [] [lit 1 10; lit 3 10] "Leaf Blight" "Tomato")
    as (d1 & h1 & _ & _ & E & _ & F & _ & L & _).
  assert (L0 : (0 < List.length sample_heap)%nat) by (cbn; lia).
  assert (L3 : (3 < List.length sample_heap)%nat) by (cbn; lia).
  exists d1, h1. split; [exact E|].
  split; [exact L0|]. split; [exact (F 0%nat L0)|].
  split; [exact L3|]. split; [exact (F 3%nat L3)|].
  cbn in L. lia.
Defined.

Example fuse_on_heap_sample :
  match Heap.fuse_results_on_heap list_mean 0%nat true "Diseased" (lit 9 10)
          [] [lit 1 10; lit 3 10] "Leaf Blight" "Tomato" sample_heap with
  | Some (d, h) =>
      d = 6%nat
      /\ Heap.snapshot h d
         = Some (fuse (lit 2 10) "Diseased" (lit 9 10) "Leaf Blight" "Tomato" [])
      /\ Heap.snapshot h 3 = Heap.snapshot sample_heap 3
  | None => False
  end.
Proof. vm_compute. repeat split. Qed.
